(** * invest-ai: the Streamlit dashboard script [in_ai.py]

    A shallow embedding of the script: the three helper functions
    ([get_company_info], [get_fundamentals], [get_recent_prices]) and the
    top-level flow (credential check, sidebar, the four sections of the
    comparison), followed by the properties of the natural-language
    specification that concern them. *)

From Stdlib Require Import ZArith String Ascii List Lia Bool Sorted.
From Stdlib Require Import DecimalString.
From Stdlib Require Import Floats.SpecFloat.
From stdpp Require Import gmap strings.

Open Scope string_scope.
Open Scope Z_scope.

(** ** Python values *)

(** The values the provider's [info] dictionary holds and the script passes
    around.  The dictionary is decoded JSON: [None], booleans, integers,
    floats and strings, and lists and dicts.  Of a list or a dict, or of any
    other object whose type has no format of its own (bytes, a tuple), the
    script observes the name of the type, the truth value and [str()]. *)
Inductive PyVal :=
| PyNone
| PyBool (b : bool)
| PyInt (z : Z)
| PyFloat (f : spec_float)
| PyStr (s : string)
| PyObject (type_name : string) (truth : bool) (text : string).

(** Exceptions.  [StopException] is what [st.stop()] raises to end the script
    run; [External] is whatever an external collaborator (the market-data
    provider, the text-generation client) raises, by name. *)
Inductive exn :=
| StopException
| KeyError (key : string)
| ValueError (msg : string)
| TypeError (msg : string)
| AttributeError (msg : string)
| External (name : string).

Inductive result (A : Type) :=
| Ok (a : A)
| Raise (e : exn).
Arguments Ok {A} a.
Arguments Raise {A} e.

(** What an external collaborator does with a request: it returns a value,
    or it fails with an exception of its own. *)
Inductive Answer (A : Type) :=
| Returned (a : A)
| Failed (name : string).
Arguments Returned {A} a.
Arguments Failed {A} name.

Definition answer_result {A : Type} (a : Answer A) : result A :=
  match a with
  | Returned x => Ok x
  | Failed name => Raise (External name)
  end.

(** Truth value of a Python object ([bool(v)]). *)
Definition truthy (v : PyVal) : bool :=
  match v with
  | PyNone => false
  | PyBool b => b
  | PyInt z => negb (z =? 0)
  | PyFloat (S754_zero _) => false
  | PyFloat _ => true
  | PyStr s => negb (String.eqb s "")
  | PyObject _ truth _ => truth
  end.

(** [str(z)] for an integer. *)
Definition int_str (z : Z) : string := NilZero.string_of_int (Z.to_int z).

(** Thousands grouping of a digit string: a comma before every group of
    three digits counted from the right. *)
Fixpoint group_thousands (digits : string) : string :=
  match digits with
  | EmptyString => EmptyString
  | String c rest =>
      let r := String.length rest in
      String c (if (Nat.ltb 0 r && Nat.eqb (Nat.modulo r 3) 0)%bool
                then String "," (group_thousands rest)
                else group_thousands rest)
  end.

(** [format(z, ",")] for an integer: sign, then grouped digits. *)
Definition int_comma (z : Z) : string :=
  if z <? 0 then "-" ++ group_thousands (int_str (- z))
  else group_thousands (int_str z).

(** Dictionaries built by the script are dict literals whose insertion order
    is observed by [.items()]: association lists. *)
Definition PyDict := list (string * PyVal).

(** [d[k]] on a script-built dictionary. *)
Fixpoint getitem (d : PyDict) (k : string) : result PyVal :=
  match d with
  | nil => Raise (KeyError k)
  | (k', v) :: d' => if String.eqb k' k then Ok v else getitem d' k
  end.

Section Script.

(** Python's float printing ([str(f)] and [format(f, ",")]) is the
    interpreter's; the script's behaviour does not depend on which digits it
    produces. *)
Variable float_str : spec_float -> string.
Variable float_comma : spec_float -> string.

(** [str(v)], as an f-string placeholder without format spec applies it. *)
Definition py_str (v : PyVal) : string :=
  match v with
  | PyNone => "None"
  | PyBool b => if b then "True" else "False"
  | PyInt z => int_str z
  | PyFloat f => float_str f
  | PyStr s => s
  | PyObject _ _ text => text
  end.

(** [format(v, ",")], as the placeholder [{v:,}] applies it: numbers are
    grouped ([bool] is a subclass of [int]), a string rejects the comma, and
    an object without a format of its own rejects any format. *)
Definition format_comma (v : PyVal) : result string :=
  match v with
  | PyNone => Raise (TypeError "unsupported format string passed to NoneType.__format__")
  | PyBool b => Ok (int_comma (if b then 1 else 0))
  | PyInt z => Ok (int_comma z)
  | PyFloat f => Ok (float_comma f)
  | PyStr _ => Raise (ValueError "Cannot specify ',' with 's'.")
  | PyObject type_name _ _ =>
      Raise (TypeError ("unsupported format string passed to "
                        ++ type_name ++ ".__format__"))
  end.

(** [info.get(k)] on the provider's dictionary: [None] when the key is
    missing. *)
Definition dict_get (info : gmap string PyVal) (k : string) : PyVal :=
  match info !! k with
  | Some v => v
  | None => PyNone
  end.

(** The ["Market Cap"] entry:
    [f"${info.get('marketCap'):,}" if info.get("marketCap") else "N/A"]. *)
Definition market_cap_entry (info : gmap string PyVal) : result PyVal :=
  if truthy (dict_get info "marketCap") then
    match format_comma (dict_get info "marketCap") with
    | Ok s => Ok (PyStr ("$" ++ s))
    | Raise e => Raise e
    end
  else Ok (PyStr "N/A").

(** The dictionary [get_company_info] returns, from the provider's [info]. *)
Definition company_info_of (info : gmap string PyVal) : result PyDict :=
  match market_cap_entry info with
  | Ok cap =>
      Ok [ ("Company", dict_get info "longName");
           ("Sector", dict_get info "sector");
           ("Industry", dict_get info "industry");
           ("Market Cap", cap) ]
  | Raise e => Raise e
  end.

(** The dictionary [get_fundamentals] returns, from the provider's [info]. *)
Definition fundamentals_of (info : gmap string PyVal) : PyDict :=
  [ ("Previous Close", dict_get info "previousClose");
    ("Trailing P/E", dict_get info "trailingPE");
    ("Forward P/E", dict_get info "forwardPE");
    ("Price/Book", dict_get info "priceToBook") ].

(** ** Price history *)

(** A [pandas.Timestamp] of the history index: a calendar date and the time
    of day (nanoseconds since midnight). *)
Record Timestamp := {
  year : Z;
  month : Z;
  day : Z;
  nanos : Z
}.

(** A row of the frame [ticker.history] returns. *)
Record HistRow := {
  h_date : Timestamp;
  h_open : spec_float;
  h_high : spec_float;
  h_low : spec_float;
  h_close : spec_float;
  h_volume : Z
}.

(** The frame [ticker.history] returns: the name [reset_index] gives to the
    column of its index ("Date" for daily and longer intervals, "Datetime"
    for intraday ones), whether the index holds datetimes (the frame the
    provider returns when it has no data does not), and the rows.  The dates
    of the rows are read only when the index holds datetimes. *)
Record HistFrame := {
  index_name : string;
  index_datetimelike : bool;
  frame_rows : list HistRow
}.

(** A row of the frame [get_recent_prices] returns: the columns
    ["Date"], ["Close"], ["Volume"], the date as a string. *)
Record PriceRow := {
  Date : string;
  Close : spec_float;
  Volume : Z
}.

(** A two-digit, zero-padded field ([%m], [%d]). *)
Definition pad2 (n : Z) : string :=
  if n <? 10 then "0" ++ int_str n else int_str n.

(** A four-digit, zero-padded field ([%Y]). *)
Definition pad4 (n : Z) : string :=
  if n <? 10 then "000" ++ int_str n
  else if n <? 100 then "00" ++ int_str n
  else if n <? 1000 then "0" ++ int_str n
  else int_str n.

(** [strftime("%Y-%m-%d")] of a datetime column: the year zero-padded to
    four digits, month and day to two; the time of day is dropped. *)
Definition strftime_ymd (t : Timestamp) : string :=
  pad4 (year t) ++ "-" ++ pad2 (month t) ++ "-" ++ pad2 (day t).

(** [df.tail(n)]: the last [n] rows, all of them when there are fewer. *)
Definition tail {A : Type} (n : nat) (l : list A) : list A :=
  skipn (length l - n) l.

(** The last rows with the columns "Date", "Close", "Volume", the date
    formatted. *)
Definition formatted_rows (recent : list HistRow) : list PriceRow :=
  map (fun r => {| Date := strftime_ymd (h_date r);
                   Close := h_close r;
                   Volume := h_volume r |})
      recent.

(** The frame [get_recent_prices] returns, from the provider's history.
    [hist.tail(6).reset_index()[["Date", "Close", "Volume"]]] raises a
    [KeyError] when the column of the index is not named "Date";
    [hist["Date"].dt] raises an [AttributeError] when that column does not
    hold datetimes. *)
Definition recent_prices_of (hist : HistFrame) : result (list PriceRow) :=
  if negb (String.eqb (index_name hist) "Date") then
    Raise (KeyError "['Date'] not in index")
  else if negb (index_datetimelike hist) then
    Raise (AttributeError "Can only use .dt accessor with datetimelike values")
  else Ok (formatted_rows (tail 6 (frame_rows hist))).

(** ** The world outside the script *)

(** Requests the script sends to its external collaborators, in the order
    they are sent. *)
Inductive Call :=
| InfoRequest (symbol : string)
| HistoryRequest (symbol period interval : string)
| AgentRun (model : string) (api_key : PyVal) (prompt : string).

(** Where an element is drawn: the main area, the sidebar, or one of the
    column containers [col1], [col2], [fcol1], [fcol2]. *)
Inductive Container := MainArea | Sidebar | Col1 | Col2 | FCol1 | FCol2.

(** The Streamlit calls of the script, each with its arguments. *)
Inductive Element :=
| PageConfig (page_title page_icon layout : string)
| ErrorBox (body : string)
| Title (body : string)
| Caption (body : string)
| Header (body : string)
| Subheader (body : string)
| TextInput (label value : string)
| Button (label : string)
| Columns (n : nat)
| Table (columns : list string) (rows : PyDict)
| Markdown (body : string)
| Metric (label : string) (value : PyVal)
| LineChart (series : list (string * spec_float)) (height : Z)
| Spinner (text : string).

(** Everything the script reads from outside: the process environment (as
    [load_dotenv] leaves it), the state of the three widgets, and the answers
    of the market-data provider and of the text-generation client.  The
    provider is asked several times in one run and may answer each request
    differently: its answers are indexed by the number of requests sent
    before. *)
Record World := {
  getenv : string -> option string;
  text_input_value : string -> string -> string;
  button_clicked : string -> bool;
  ticker_info : nat -> string -> Answer (gmap string PyVal);
  ticker_history : nat -> string -> string -> string -> Answer HistFrame;
  agent_run : string -> Answer PyVal
}.

(** What a run has done so far: the elements drawn, and the requests sent. *)
Record State := {
  screen : list (Container * Element);
  calls : list Call
}.

Definition initial : State := {| screen := []; calls := [] |}.

(** Script code: it changes the state, and returns a value or raises. *)
Definition M (A : Type) : Type := State -> State * result A.

Definition ret {A : Type} (a : A) : M A := fun s => (s, Ok a).

Definition raise {A : Type} (e : exn) : M A := fun s => (s, Raise e).

Definition bind {A B : Type} (c : M A) (k : A -> M B) : M B :=
  fun s =>
    match c s with
    | (s', Ok a) => k a s'
    | (s', Raise e) => (s', Raise e)
    end.

Notation "x <- c ;; k" := (bind c (fun x => k))
  (at level 100, c at next level, right associativity).
Notation "c ;; k" := (bind c (fun _ => k))
  (at level 100, right associativity).

Definition lift {A : Type} (r : result A) : M A := fun s => (s, r).

Definition draw (c : Container) (e : Element) : M unit :=
  fun s => ({| screen := screen s ++ [(c, e)]; calls := calls s |}, Ok tt).

(** A request to a collaborator: it is recorded, and its answer is returned
    or raised. *)
Definition request {A : Type} (c : Call) (answer : nat -> Answer A) : M A :=
  fun s => ({| screen := screen s; calls := calls s ++ [c] |},
            answer_result (answer (length (calls s)))).

(** [st.stop()] *)
Definition st_stop {A : Type} : M A := raise StopException.

(** [st.text_input(label, value=default)] *)
Definition st_text_input (w : World) (c : Container) (label default : string)
  : M string :=
  let v := text_input_value w label default in
  draw c (TextInput label v) ;; ret v.

(** [st.button(label)] *)
Definition st_button (w : World) (c : Container) (label : string) : M bool :=
  draw c (Button label) ;; ret (button_clicked w label).

(** ** Helper functions *)

(** [yf.Ticker(symbol).info] *)
Definition ticker_info_request (w : World) (symbol : string)
  : M (gmap string PyVal) :=
  request (InfoRequest symbol) (fun n => ticker_info w n symbol).

Definition get_company_info (w : World) (symbol : string) : M PyDict :=
  info <- ticker_info_request w symbol ;;
  lift (company_info_of info).

Definition get_fundamentals (w : World) (symbol : string) : M PyDict :=
  info <- ticker_info_request w symbol ;;
  ret (fundamentals_of info).

Definition get_recent_prices (w : World) (symbol period interval : string)
  : M (list PriceRow) :=
  hist <- request (HistoryRequest symbol period interval)
            (fun n => ticker_history w n symbol period interval) ;;
  lift (recent_prices_of hist).

(** ** The script, top to bottom *)

(** [os.getenv(name)] as a Python value. *)
Definition os_getenv (w : World) (name : string) : PyVal :=
  match getenv w name with
  | Some v => PyStr v
  | None => PyNone
  end.

Definition page_config : Element :=
  PageConfig "AI Investment Dashboard" "📊" "wide".

Definition key_not_found : string :=
  "❌ Groq API Key not found. Please set GROQ_API_KEY in your .env or environment variables.".

(** Config and setup: page configuration, the credential read from the
    environment, and the check that stops the script when it is missing. *)
Definition setup (w : World) : M PyVal :=
  draw MainArea page_config ;;
  let groq_api_key := os_getenv w "GROQ_API_KEY" in
  (if negb (truthy groq_api_key) then
     draw MainArea (ErrorBox key_not_found) ;;
     st_stop
   else ret tt) ;;
  ret groq_api_key.

(** UI layout: title, caption and the sidebar with its three widgets. *)
Definition ui_layout (w : World) : M (string * string * bool) :=
  draw MainArea (Title "📊 AI Investment Dashboard") ;;
  draw MainArea (Caption "Compare company fundamentals, stock performance, and AI analysis.") ;;
  draw Sidebar (Header "📈 Stock Panel") ;;
  stock1 <- st_text_input w Sidebar "Stock 1 Symbol" "AAPL" ;;
  stock2 <- st_text_input w Sidebar "Stock 2 Symbol" "MSFT" ;;
  run_analysis <- st_button w Sidebar "Run Analysis" ;;
  ret (stock1, stock2, run_analysis).

(** The company-info section: one table per column. *)
Definition company_info_section (w : World) (stock1 stock2 : string)
  : M (PyDict * PyDict) :=
  draw MainArea (Columns 2) ;;
  draw Col1 (Subheader ("🏢 " ++ stock1 ++ " Company Info")) ;;
  info1 <- get_company_info w stock1 ;;
  draw Col1 (Table ["Metric"; "Value"] info1) ;;
  draw Col2 (Subheader ("🏢 " ++ stock2 ++ " Company Info")) ;;
  info2 <- get_company_info w stock2 ;;
  draw Col2 (Table ["Metric"; "Value"] info2) ;;
  ret (info1, info2).

(** The values [st.metric] takes: [None], a number or a string.  ([bool] is
    a subclass of [int].) *)
Definition metric_accepts (v : PyVal) : bool :=
  match v with
  | PyObject _ _ _ => false
  | _ => true
  end.

Definition metric_type_error (v : PyVal) : exn :=
  TypeError
    ("'" ++ py_str v ++ "' is of type <class '"
     ++ match v with PyObject type_name _ _ => type_name | _ => "" end
     ++ "'>, which is not an accepted type. value only accepts: int, float, str, or None. Please convert the value to an accepted type.").

(** [st.metric(label, fund[label])]: any other value is refused with a
    [TypeError]. *)
Definition st_metric (c : Container) (fund : PyDict) (label : string) : M unit :=
  v <- lift (getitem fund label) ;;
  if metric_accepts v then draw c (Metric label v)
  else raise (metric_type_error v).

(** One column of the fundamentals section. *)
Definition fundamentals_column (w : World) (c : Container) (stock : string)
  : M unit :=
  fund <- get_fundamentals w stock ;;
  st_metric c fund "Previous Close" ;;
  st_metric c fund "Trailing P/E" ;;
  st_metric c fund "Forward P/E" ;;
  st_metric c fund "Price/Book".

Definition fundamentals_section (w : World) (stock1 stock2 : string) : M unit :=
  draw MainArea (Markdown "## 📌 Fundamentals") ;;
  draw MainArea (Columns 2) ;;
  fundamentals_column w FCol1 stock1 ;;
  fundamentals_column w FCol2 stock2.

(** [prices.set_index("Date")["Close"]] *)
Definition close_by_date (prices : list PriceRow) : list (string * spec_float) :=
  map (fun r => (Date r, Close r)) prices.

Definition prices_section (w : World) (stock1 stock2 : string) : M unit :=
  draw MainArea (Markdown "## 📈 Recent Price Trend") ;;
  prices1 <- get_recent_prices w stock1 "6mo" "1mo" ;;
  prices2 <- get_recent_prices w stock2 "6mo" "1mo" ;;
  draw MainArea (LineChart (close_by_date prices1) 300) ;;
  draw MainArea (LineChart (close_by_date prices2) 300).

(** The prompt, from the two symbols and the two ["Company"] values. *)
Definition query (stock1 : string) (company1 : PyVal)
                 (stock2 : string) (company2 : PyVal) : string :=
  "Compare " ++ stock1 ++ " (" ++ py_str company1 ++ ") and "
    ++ stock2 ++ " (" ++ py_str company2 ++ "). "
    ++ "Analyze fundamentals, recent price performance, risks, and give an investment recommendation. "
    ++ "Be concise and format your response as a professional financial analyst report with bullet points and sections.".

Definition ai_section (w : World) (groq_api_key : PyVal)
    (stock1 stock2 : string) (info1 info2 : PyDict) : M unit :=
  draw MainArea (Markdown "## 🤖 AI Investment Analysis") ;;
  company1 <- lift (getitem info1 "Company") ;;
  company2 <- lift (getitem info2 "Company") ;;
  let q := query stock1 company1 stock2 company2 in
  draw MainArea (Spinner "AI is analyzing the stocks...") ;;
  content <- request (AgentRun "llama-3.3-70b-versatile" groq_api_key q)
               (fun _ => agent_run w q) ;;
  draw MainArea (Markdown (py_str content)).

(** Main content, under the guard [run_analysis and stock1 and stock2]. *)
Definition main_content (w : World) (groq_api_key : PyVal)
    (stock1 stock2 : string) (run_analysis : bool) : M unit :=
  if (run_analysis && truthy (PyStr stock1) && truthy (PyStr stock2))%bool then
    infos <- company_info_section w stock1 stock2 ;;
    fundamentals_section w stock1 stock2 ;;
    prices_section w stock1 stock2 ;;
    ai_section w groq_api_key stock1 stock2 (fst infos) (snd infos)
  else ret tt.

Definition script (w : World) : M unit :=
  groq_api_key <- setup w ;;
  inputs <- ui_layout w ;;
  let '(stock1, stock2, run_analysis) := inputs in
  main_content w groq_api_key stock1 stock2 run_analysis.

(** How a run of the script ends: it reaches the last line, it is stopped by
    [st.stop()], or an exception leaves it. *)
Inductive Outcome :=
| Completed
| Stopped
| Uncaught (e : exn).

Definition outcome_of (r : result unit) : Outcome :=
  match r with
  | Ok _ => Completed
  | Raise StopException => Stopped
  | Raise e => Uncaught e
  end.

(** One run of the script from an empty page. *)
Definition run_script (w : World) : State * Outcome :=
  let '(s, r) := script w initial in (s, outcome_of r).


(** ** Sample worlds *)

(** Provider data for two recognised symbols; any other symbol gets an empty
    [info] dictionary and an empty history. *)
Definition apple_info : gmap string PyVal :=
  <["longName" := PyStr "Apple Inc."]>
  (<["sector" := PyStr "Technology"]>
  (<["industry" := PyStr "Consumer Electronics"]>
  (<["marketCap" := PyInt 3000000000]>
  (<["previousClose" := PyFloat (S754_finite false 379 (-1))]>
  (<["trailingPE" := PyFloat (S754_finite false 59 (-1))]> ∅))))).

Definition microsoft_info : gmap string PyVal :=
  <["longName" := PyStr "Microsoft Corporation"]>
  (<["sector" := PyStr "Technology"]>
  (<["marketCap" := PyInt 2800000000000]>
  (<["previousClose" := PyFloat (S754_finite false 415 0)]> ∅))).

Definition sample_info (symbol : string) : gmap string PyVal :=
  if String.eqb symbol "AAPL" then apple_info
  else if String.eqb symbol "MSFT" then microsoft_info
  else ∅.

Definition month_start (y m : Z) (close : Z) : HistRow :=
  {| h_date := {| year := y; month := m; day := 1; nanos := 0 |};
     h_open := S754_finite false (Z.to_pos close) 0;
     h_high := S754_finite false (Z.to_pos close) 0;
     h_low := S754_finite false (Z.to_pos close) 0;
     h_close := S754_finite false (Z.to_pos close) 0;
     h_volume := 1000 * close |}.

(** Seven monthly rows, as a six-month query returns them when the current
    month has started. *)
Definition sample_history : list HistRow :=
  [ month_start 2024 9 170; month_start 2024 10 175; month_start 2024 11 180;
    month_start 2024 12 185; month_start 2025 1 190; month_start 2025 2 195;
    month_start 2025 3 200 ].

(** The row of a month and the row of the current quote, on the first day
    of the month. *)
Definition same_day_rows : list HistRow :=
  [ month_start 2025 3 200;
    {| h_date := {| year := 2025; month := 3; day := 1;
                    nanos := 57600000000000 |};
       h_open := S754_finite false 200 0;
       h_high := S754_finite false 202 0;
       h_low := S754_finite false 199 0;
       h_close := S754_finite false 201 0;
       h_volume := 4000 |} ].

Definition date_frame (rows : list HistRow) : HistFrame :=
  {| index_name := "Date"; index_datetimelike := true; frame_rows := rows |}.

(** The frame the provider returns for a symbol it has no data for: no row,
    and an index that does not hold datetimes. *)
Definition no_data_frame : HistFrame :=
  {| index_name := "Date"; index_datetimelike := false; frame_rows := [] |}.

Definition sample_world : World :=
  {| getenv := fun name =>
       if String.eqb name "GROQ_API_KEY" then Some "gsk_sample" else None;
     text_input_value := fun _ default => default;
     button_clicked := fun _ => true;
     ticker_info := fun _ symbol => Returned (sample_info symbol);
     ticker_history := fun _ symbol _ _ =>
       if (String.eqb symbol "AAPL" || String.eqb symbol "MSFT")%bool
       then Returned (date_frame sample_history) else Returned (date_frame []);
     agent_run := fun _ => Returned (PyStr "- AAPL vs MSFT: hold both.") |}.

(** The same world with other widget values. *)
Definition with_inputs (w : World) (stock1 stock2 : string) (clicked : bool)
  : World :=
  {| getenv := getenv w;
     text_input_value := fun label _ =>
       if String.eqb label "Stock 1 Symbol" then stock1 else stock2;
     button_clicked := fun _ => clicked;
     ticker_info := ticker_info w;
     ticker_history := ticker_history w;
     agent_run := agent_run w |}.

(** The same world with another answer of the text-generation client. *)
Definition with_agent (w : World) (answer : Answer PyVal) : World :=
  {| getenv := getenv w;
     text_input_value := text_input_value w;
     button_clicked := button_clicked w;
     ticker_info := ticker_info w;
     ticker_history := ticker_history w;
     agent_run := fun _ => answer |}.

(** The same world with the [n]-th provider request failing. *)
Definition with_failing_request (w : World) (n : nat) : World :=
  {| getenv := getenv w;
     text_input_value := text_input_value w;
     button_clicked := button_clicked w;
     ticker_info := fun k symbol =>
       if Nat.eqb k n then Failed "yfinance" else ticker_info w k symbol;
     ticker_history := fun k symbol period interval =>
       if Nat.eqb k n then Failed "yfinance"
       else ticker_history w k symbol period interval;
     agent_run := agent_run w |}.

(** The same world with the provider answering every [info] request with
    the given dictionary. *)
Definition with_info (w : World) (info : gmap string PyVal) : World :=
  {| getenv := getenv w;
     text_input_value := text_input_value w;
     button_clicked := button_clicked w;
     ticker_info := fun _ _ => Returned info;
     ticker_history := ticker_history w;
     agent_run := agent_run w |}.

(** A float printer for the sample runs: sign, mantissa and exponent written
    out.  (Python prints the shortest decimal that reads back; no statement
    below depends on the digits.) *)
Definition sample_float_str (f : spec_float) : string :=
  match f with
  | S754_zero sign => if sign then "-0.0" else "0.0"
  | S754_infinity sign => if sign then "-inf" else "inf"
  | S754_nan => "nan"
  | S754_finite sign m e =>
      (if sign then "-" else "") ++ int_str (Zpos m) ++ "*2**" ++ int_str e
  end.

(** The same world with the provider answering every history request with
    the given frame. *)
Definition with_history (w : World) (hist : HistFrame) : World :=
  {| getenv := getenv w;
     text_input_value := text_input_value w;
     button_clicked := button_clicked w;
     ticker_info := ticker_info w;
     ticker_history := fun _ _ _ _ => Returned hist;
     agent_run := agent_run w |}.

(** The same world with another value of the credential. *)
Definition with_credential (w : World) (key : string) : World :=
  {| getenv := fun name =>
       if String.eqb name "GROQ_API_KEY" then Some key else getenv w name;
     text_input_value := text_input_value w;
     button_clicked := button_clicked w;
     ticker_info := ticker_info w;
     ticker_history := ticker_history w;
     agent_run := agent_run w |}.


(** ** Notions used in the statements *)

(** [sub in s] *)
Definition Substring (sub s : string) : Prop :=
  exists pre post, s = pre ++ sub ++ post.

Fixpoint contains (sub s : string) : bool :=
  (String.prefix sub s
   || match s with
      | EmptyString => false
      | String _ s' => contains sub s'
      end)%bool.

Definition is_digit (c : ascii) : bool :=
  ((48 <=? N_of_ascii c) && (N_of_ascii c <=? 57))%N%bool.

(** Ten characters: four digits, a dash, two digits, a dash, two digits. *)
Definition is_ymd (s : string) : bool :=
  match list_ascii_of_string s with
  | [y1; y2; y3; y4; h1; m1; m2; h2; d1; d2] =>
      (is_digit y1 && is_digit y2 && is_digit y3 && is_digit y4
       && Ascii.eqb h1 "-" && is_digit m1 && is_digit m2
       && Ascii.eqb h2 "-" && is_digit d1 && is_digit d2)%bool
  | _ => false
  end.

(** Calendar order of two timestamps, by date. *)
Definition date_lt (t1 t2 : Timestamp) : Prop :=
  year t1 < year t2
  \/ (year t1 = year t2
      /\ (month t1 < month t2
          \/ (month t1 = month t2 /\ day t1 < day t2))).

(** The fields of a timestamp are those of a calendar date with a
    four-digit year (a [pandas.Timestamp] lies between 1677 and 2262). *)
Definition calendar_date (t : Timestamp) : Prop :=
  1000 <= year t <= 9999 /\ 1 <= month t <= 12 /\ 1 <= day t <= 31.

(** A property of the [n] integers from [z] on, checked one by one. *)
Fixpoint holds_from (P : Z -> bool) (n : nat) (z : Z) : bool :=
  match n with
  | O => true
  | S n' => (P z && holds_from P n' (z + 1))%bool
  end.

(** The character of a decimal digit. *)
Definition digit_char (d : Z) : ascii := ascii_of_N (Z.to_N (48 + d)).

(** The four characters of a year of at most four digits. *)
Definition year_string (y : Z) : string :=
  String (digit_char (y / 1000))
    (String (digit_char (y / 100 mod 10))
      (String (digit_char (y / 10 mod 10))
        (String (digit_char (y mod 10)) ""))).

(** The ten characters of a date, from the digits of its fields. *)
Definition ymd_string (y m d : Z) : string :=
  String (digit_char (y / 1000))
    (String (digit_char (y / 100 mod 10))
      (String (digit_char (y / 10 mod 10))
        (String (digit_char (y mod 10))
          (String "-"
            (String (digit_char (m / 10))
              (String (digit_char (m mod 10))
                (String "-"
                  (String (digit_char (d / 10))
                    (String (digit_char (d mod 10)) ""))))))))).

(** Order of two strings as Python's [<] on [str]. *)
Definition str_lt (a b : string) : Prop := String.compare a b = Lt.

(** The string without its commas. *)
Fixpoint remove_commas (s : string) : string :=
  match s with
  | EmptyString => EmptyString
  | String c rest =>
      if Ascii.eqb c "," then remove_commas rest
      else String c (remove_commas rest)
  end.

(** No character of the string is a comma. *)
Fixpoint comma_free (s : string) : Prop :=
  match s with
  | EmptyString => True
  | String c rest => c <> ","%char /\ comma_free rest
  end.

(** The state after one more request. *)
Definition after_request (s : State) (c : Call) : State :=
  {| screen := screen s; calls := calls s ++ [c] |}.

(** The page as [ui_layout] leaves it: title, caption and sidebar. *)
Definition layout_screen (w : World) : list (Container * Element) :=
  [ (MainArea, page_config);
    (MainArea, Title "📊 AI Investment Dashboard");
    (MainArea, Caption "Compare company fundamentals, stock performance, and AI analysis.");
    (Sidebar, Header "📈 Stock Panel");
    (Sidebar, TextInput "Stock 1 Symbol"
                (text_input_value w "Stock 1 Symbol" "AAPL"));
    (Sidebar, TextInput "Stock 2 Symbol"
                (text_input_value w "Stock 2 Symbol" "MSFT"));
    (Sidebar, Button "Run Analysis") ].

(** The values the script reads at the top of a run. *)
Definition groq_api_key (w : World) : PyVal := os_getenv w "GROQ_API_KEY".
Definition stock1 (w : World) : string :=
  text_input_value w "Stock 1 Symbol" "AAPL".
Definition stock2 (w : World) : string :=
  text_input_value w "Stock 2 Symbol" "MSFT".
Definition run_analysis (w : World) : bool := button_clicked w "Run Analysis".

(** The state in which the main content starts. *)
Definition layout_state (w : World) : State :=
  {| screen := layout_screen w; calls := [] |}.

(** What the company-info section draws, from the two records. *)
Definition info_elements (stock1 stock2 : string) (info1 info2 : PyDict)
  : list (Container * Element) :=
  [ (MainArea, Columns 2);
    (Col1, Subheader ("🏢 " ++ stock1 ++ " Company Info"));
    (Col1, Table ["Metric"; "Value"] info1);
    (Col2, Subheader ("🏢 " ++ stock2 ++ " Company Info"));
    (Col2, Table ["Metric"; "Value"] info2) ].

(** The four metrics of one column, from the provider's [info]. *)
Definition metric_elements (c : Container) (info : gmap string PyVal)
  : list (Container * Element) :=
  [ (c, Metric "Previous Close" (dict_get info "previousClose"));
    (c, Metric "Trailing P/E" (dict_get info "trailingPE"));
    (c, Metric "Forward P/E" (dict_get info "forwardPE"));
    (c, Metric "Price/Book" (dict_get info "priceToBook")) ].

Definition fundamentals_heading : list (Container * Element) :=
  [ (MainArea, Markdown "## 📌 Fundamentals"); (MainArea, Columns 2) ].

Definition prices_heading : Container * Element :=
  (MainArea, Markdown "## 📈 Recent Price Trend").

(** Whether [st.metric] takes each of the four values of an [info]. *)
Definition metrics_accepted (info : gmap string PyVal) : bool :=
  forallb (fun key => metric_accepts (dict_get info key))
    ["previousClose"; "trailingPE"; "forwardPE"; "priceToBook"].

(** What [get_recent_prices] returns or raises when its request is the
    [n]-th of the run. *)
Definition prices_answer (w : World) (n : nat) (symbol period interval : string)
  : result (list PriceRow) :=
  match ticker_history w n symbol period interval with
  | Returned hist => recent_prices_of hist
  | Failed name => Raise (External name)
  end.

(** The two charts, from the two series. *)
Definition chart_elements (prices1 prices2 : list PriceRow)
  : list (Container * Element) :=
  [ (MainArea, LineChart (close_by_date prices1) 300);
    (MainArea, LineChart (close_by_date prices2) 300) ].

(** What the three data sections draw. *)
Definition data_elements (stock1 stock2 : string) (info1 info2 : PyDict)
    (fund1 fund2 : gmap string PyVal) (prices1 prices2 : list PriceRow)
  : list (Container * Element) :=
  (info_elements stock1 stock2 info1 info2
   ++ fundamentals_heading
   ++ metric_elements FCol1 fund1 ++ metric_elements FCol2 fund2
   ++ prices_heading :: chart_elements prices1 prices2)%list.

(** The requests of the three data sections. *)
Definition data_requests (stock1 stock2 : string) : list Call :=
  [ InfoRequest stock1; InfoRequest stock2;
    InfoRequest stock1; InfoRequest stock2;
    HistoryRequest stock1 "6mo" "1mo"; HistoryRequest stock2 "6mo" "1mo" ].

Definition ai_heading : list (Container * Element) :=
  [ (MainArea, Markdown "## 🤖 AI Investment Analysis");
    (MainArea, Spinner "AI is analyzing the stocks...") ].

(** The first fundamentals or price fetch that fails, with the answers of
    the fetches before it.  The requests of a run are numbered from 0; the
    two company-info fetches are requests 0 and 1. *)
Inductive DataFailure :=
| Fundamentals1Fails
| Fundamentals2Fails (fund1 : gmap string PyVal)
| Prices1Fails (fund1 fund2 : gmap string PyVal)
| Prices2Fails (fund1 fund2 : gmap string PyVal) (prices1 : list PriceRow).

(** The fetch fails with the exception [e]: a fundamentals fetch when the
    provider does, a price fetch when the provider does or when
    [get_recent_prices] raises on the frame it returned.  The fundamentals
    fetched before were drawn, so their values are ones [st.metric] takes. *)
Definition fails_with (w : World) (e : exn) (f : DataFailure) : Prop :=
  match f with
  | Fundamentals1Fails =>
      answer_result (ticker_info w 2 (stock1 w)) = Raise e
  | Fundamentals2Fails fund1 =>
      ticker_info w 2 (stock1 w) = Returned fund1
      /\ metrics_accepted fund1 = true
      /\ answer_result (ticker_info w 3 (stock2 w)) = Raise e
  | Prices1Fails fund1 fund2 =>
      ticker_info w 2 (stock1 w) = Returned fund1
      /\ metrics_accepted fund1 = true
      /\ ticker_info w 3 (stock2 w) = Returned fund2
      /\ metrics_accepted fund2 = true
      /\ prices_answer w 4 (stock1 w) "6mo" "1mo" = Raise e
  | Prices2Fails fund1 fund2 prices1 =>
      ticker_info w 2 (stock1 w) = Returned fund1
      /\ metrics_accepted fund1 = true
      /\ ticker_info w 3 (stock2 w) = Returned fund2
      /\ metrics_accepted fund2 = true
      /\ prices_answer w 4 (stock1 w) "6mo" "1mo" = Ok prices1
      /\ prices_answer w 5 (stock2 w) "6mo" "1mo" = Raise e
  end.

(** The column of the fundamentals section whose fetch failed, if one did. *)
Definition failed_column (f : DataFailure) : option Container :=
  match f with
  | Fundamentals1Fails => Some FCol1
  | Fundamentals2Fails _ => Some FCol2
  | Prices1Fails _ _ | Prices2Fails _ _ _ => None
  end.

(** What is drawn after the company-info section and before the failing
    fetch. *)
Definition drawn_before (f : DataFailure) : list (Container * Element) :=
  match f with
  | Fundamentals1Fails => fundamentals_heading
  | Fundamentals2Fails fund1 =>
      (fundamentals_heading ++ metric_elements FCol1 fund1)%list
  | Prices1Fails fund1 fund2 | Prices2Fails fund1 fund2 _ =>
      (fundamentals_heading
       ++ metric_elements FCol1 fund1 ++ metric_elements FCol2 fund2
       ++ [prices_heading])%list
  end.

(** How many requests have been sent when the failing fetch has. *)
Definition requests_sent (f : DataFailure) : nat :=
  match f with
  | Fundamentals1Fails => 3
  | Fundamentals2Fails _ => 4
  | Prices1Fails _ _ => 5
  | Prices2Fails _ _ _ => 6
  end.

(** The claim of graceful degradation, for the second column: the run
    completes, the four metrics of the column are drawn as "N/A", and the
    text-generation client is asked. *)
Definition degrades_to_not_available (r : State * Outcome) : Prop :=
  snd r = Completed
  /\ (forall label,
        In label ["Previous Close"; "Trailing P/E"; "Forward P/E"; "Price/Book"] ->
        In (FCol2, Metric label (PyStr "N/A")) (screen (fst r)))
  /\ exists model key prompt, In (AgentRun model key prompt) (calls (fst r)).

(** Code that never raises [StopException]. *)
Definition never_stops {A : Type} (c : M A) : Prop :=
  forall s, snd (c s) <> Raise StopException.

(** The sections of the main content that come before the AI analysis. *)
Definition data_sections (w : World) (stock1 stock2 : string)
  : M (PyDict * PyDict) :=
  infos <- company_info_section w stock1 stock2 ;;
  fundamentals_section w stock1 stock2 ;;
  prices_section w stock1 stock2 ;;
  ret infos.

(** ** The helper functions, one request each *)

Lemma get_company_info_run (w : World) (symbol : string) (s : State) :
  get_company_info w symbol s =
  (after_request s (InfoRequest symbol),
   match ticker_info w (length (calls s)) symbol with
   | Returned info => company_info_of info
   | Failed name => Raise (External name)
   end).
Proof.
  unfold get_company_info, ticker_info_request, request, bind, lift, after_request.
  cbn. destruct (ticker_info w (length (calls s)) symbol); reflexivity.
Qed.

Lemma get_fundamentals_run (w : World) (symbol : string) (s : State) :
  get_fundamentals w symbol s =
  (after_request s (InfoRequest symbol),
   match ticker_info w (length (calls s)) symbol with
   | Returned info => Ok (fundamentals_of info)
   | Failed name => Raise (External name)
   end).
Proof.
  unfold get_fundamentals, ticker_info_request, request, bind, ret, after_request.
  cbn. destruct (ticker_info w (length (calls s)) symbol); reflexivity.
Qed.

Lemma get_recent_prices_run (w : World) (symbol period interval : string)
    (s : State) :
  get_recent_prices w symbol period interval s =
  (after_request s (HistoryRequest symbol period interval),
   prices_answer w (length (calls s)) symbol period interval).
Proof.
  unfold get_recent_prices, request, bind, lift, after_request, prices_answer.
  cbn. destruct (ticker_history w (length (calls s)) symbol period interval);
    reflexivity.
Qed.

Lemma dict_get_present (info : gmap string PyVal) (k : string) (v : PyVal) :
  info !! k = Some v -> dict_get info k = v.
Proof. intros H. unfold dict_get. rewrite H. reflexivity. Qed.

Lemma dict_get_absent (info : gmap string PyVal) (k : string) :
  info !! k = None -> dict_get info k = PyNone.
Proof. intros H. unfold dict_get. rewrite H. reflexivity. Qed.

(** ** Market cap *)

(** C5. Market-cap formatting: when the provider's market cap is the integer
    3000000000, [get_company_info] returns a record whose "Market Cap" entry
    is exactly the string "$3,000,000,000"; when the provider has no market
    cap, the entry is exactly "N/A". *)
Theorem market_cap_formatting (w : World) (symbol : string) (s : State)
    (info : gmap string PyVal) :
  ticker_info w (length (calls s)) symbol = Returned info ->
  (info !! "marketCap" = Some (PyInt 3000000000) ->
   exists d, snd (get_company_info w symbol s) = Ok d
             /\ getitem d "Market Cap" = Ok (PyStr "$3,000,000,000"))
  /\ (info !! "marketCap" = None ->
      exists d, snd (get_company_info w symbol s) = Ok d
                /\ getitem d "Market Cap" = Ok (PyStr "N/A")).
Proof.
  intros Hinfo. rewrite get_company_info_run, Hinfo. cbn [snd].
  unfold company_info_of, market_cap_entry. split; intros Hcap.
  - rewrite (dict_get_present _ _ _ Hcap). cbn.
    eexists. split; [reflexivity |]. reflexivity.
  - rewrite (dict_get_absent _ _ Hcap). cbn.
    eexists. split; [reflexivity |]. reflexivity.
Qed.

(** C9. A market cap that is present upstream but equal to 0 is rendered as
    "N/A", not as "$0": the key is in the provider's dictionary, and the
    entry is decided by the truth value of what it maps to. *)
Theorem zero_market_cap_is_not_available (w : World) (symbol : string)
    (s : State) (info : gmap string PyVal) :
  ticker_info w (length (calls s)) symbol = Returned info ->
  info !! "marketCap" = Some (PyInt 0) ->
  "marketCap" ∈ dom info
  /\ exists d, snd (get_company_info w symbol s) = Ok d
               /\ getitem d "Market Cap" = Ok (PyStr "N/A")
               /\ getitem d "Market Cap" <> Ok (PyStr "$0").
Proof.
  intros Hinfo Hcap. split.
  - apply elem_of_dom. rewrite Hcap. eauto.
  - rewrite get_company_info_run, Hinfo. cbn [snd].
    unfold company_info_of, market_cap_entry.
    rewrite (dict_get_present _ _ _ Hcap). cbn.
    eexists. split; [reflexivity |]. split; [reflexivity | discriminate].
Qed.

(** Grouping only inserts commas. *)
Lemma remove_commas_group_thousands (digits : string) :
  comma_free digits -> remove_commas (group_thousands digits) = digits.
Proof.
  induction digits as [| c rest IH]; intros Hfree; [reflexivity |].
  destruct Hfree as [Hc Hrest]. cbn [group_thousands remove_commas].
  apply Ascii.eqb_neq in Hc. rewrite Hc.
  destruct (Nat.ltb 0 (String.length rest)
            && Nat.eqb (Nat.modulo (String.length rest) 3) 0)%bool.
  - cbn [remove_commas]. rewrite Ascii.eqb_refl, (IH Hrest). reflexivity.
  - rewrite (IH Hrest). reflexivity.
Qed.

Lemma comma_free_uint (d : Decimal.uint) :
  comma_free (NilEmpty.string_of_uint d).
Proof. induction d; cbn; (trivial || (split; [discriminate | assumption])). Qed.

Lemma comma_free_int_str_nonneg (z : Z) : 0 <= z -> comma_free (int_str z).
Proof.
  intros Hz. unfold int_str.
  destruct z as [| q | q]; [cbn; split; [discriminate | trivial] | | lia].
  cbn [Z.to_int NilZero.string_of_int]. unfold NilZero.string_of_uint.
  destruct (Pos.to_uint q) eqn:E;
    [cbn; split; [discriminate | trivial] | rewrite <- E; apply comma_free_uint ..].
Qed.

Lemma int_str_negative (z : Z) : z < 0 -> int_str z = "-" ++ int_str (- z).
Proof. intros Hz. destruct z; try lia. reflexivity. Qed.

(** The digits of [format(z, ",")] are those of [str(z)]. *)
Lemma remove_commas_int_comma (z : Z) : remove_commas (int_comma z) = int_str z.
Proof.
  unfold int_comma. destruct (Z.ltb_spec z 0) as [Hneg | Hpos].
  - rewrite (int_str_negative z Hneg).
    change (remove_commas (String "-" (group_thousands (int_str (- z))))
            = String "-" (int_str (- z))).
    cbn [remove_commas].
    replace (Ascii.eqb "-" ",") with false by reflexivity.
    rewrite remove_commas_group_thousands;
      [reflexivity | apply comma_free_int_str_nonneg; lia].
  - apply remove_commas_group_thousands, comma_free_int_str_nonneg, Hpos.
Qed.

(** C6, as the script has it. When the provider's market cap is a non-zero
    integer [n], [get_company_info] does not surface the raw number: the
    "Market Cap" entry of the record it returns is a string, a dollar sign
    followed by the digits of [n] with thousands separators.  The formatting
    is done by the fetch itself. *)
Theorem market_cap_is_surfaced_formatted (w : World) (symbol : string)
    (s : State) (info : gmap string PyVal) (n : Z) :
  ticker_info w (length (calls s)) symbol = Returned info ->
  info !! "marketCap" = Some (PyInt n) ->
  n <> 0 ->
  exists d, snd (get_company_info w symbol s) = Ok d
            /\ getitem d "Market Cap" = Ok (PyStr ("$" ++ int_comma n))
            /\ remove_commas (int_comma n) = int_str n
            /\ getitem d "Market Cap" <> Ok (PyInt n).
Proof.
  intros Hinfo Hcap Hn. rewrite get_company_info_run, Hinfo. cbn [snd].
  unfold company_info_of, market_cap_entry.
  rewrite (dict_get_present _ _ _ Hcap). cbn [truthy format_comma].
  apply Z.eqb_neq in Hn. rewrite Hn. cbn [negb].
  eexists. split; [reflexivity |].
  split; [reflexivity |]. split; [apply remove_commas_int_comma | discriminate].
Qed.

(** ** Missing fields *)

Lemma market_cap_entry_raise (info : gmap string PyVal) (e : exn) :
  market_cap_entry info = Raise e ->
  exists v,
    info !! "marketCap" = Some v /\ truthy v = true
    /\ format_comma v = Raise e
    /\ ((exists t, v = PyStr t)
        \/ (exists type_name truth text, v = PyObject type_name truth text)).
Proof.
  unfold market_cap_entry, dict_get.
  destruct (info !! "marketCap") as [v |] eqn:E; [| cbn; discriminate].
  destruct (truthy v) eqn:Htruthy; [| discriminate].
  destruct (format_comma v) as [digits | e'] eqn:Hformat; [discriminate |].
  intros [= <-]. exists v. split; [reflexivity |]. split; [exact Htruthy |].
  split; [exact Hformat |].
  destruct v as [| b | z | f | t | type_name truth text];
    try discriminate; eauto.
Qed.

(** C1, as the script has it. When the provider answers with an [info]
    dictionary, a field that is missing upstream never makes
    [get_company_info] or [get_fundamentals] raise: [get_fundamentals]
    always returns, and [get_company_info] raises only on a market cap that
    is present and truthy and that the thousands format rejects (a non-empty
    string; a list, dict or other object), so not when the market cap is
    missing.  In the record returned, a missing market cap is the "N/A"
    marker; every other missing field (company name, sector, industry, and
    each of the four fundamentals) is [None]. *)
Theorem missing_fields_do_not_raise (w : World) (symbol : string) (s : State)
    (info : gmap string PyVal) :
  ticker_info w (length (calls s)) symbol = Returned info ->
  (forall e, snd (get_company_info w symbol s) = Raise e ->
     exists v,
       info !! "marketCap" = Some v /\ truthy v = true
       /\ ((exists t, v = PyStr t)
           \/ (exists type_name truth text, v = PyObject type_name truth text)))
  /\ (info !! "marketCap" = None ->
      exists d, snd (get_company_info w symbol s) = Ok d)
  /\ (forall d, snd (get_company_info w symbol s) = Ok d ->
        (info !! "longName" = None -> getitem d "Company" = Ok PyNone)
        /\ (info !! "sector" = None -> getitem d "Sector" = Ok PyNone)
        /\ (info !! "industry" = None -> getitem d "Industry" = Ok PyNone)
        /\ (info !! "marketCap" = None ->
            getitem d "Market Cap" = Ok (PyStr "N/A")))
  /\ (exists f, snd (get_fundamentals w symbol s) = Ok f
        /\ (info !! "previousClose" = None ->
            getitem f "Previous Close" = Ok PyNone)
        /\ (info !! "trailingPE" = None ->
            getitem f "Trailing P/E" = Ok PyNone)
        /\ (info !! "forwardPE" = None ->
            getitem f "Forward P/E" = Ok PyNone)
        /\ (info !! "priceToBook" = None ->
            getitem f "Price/Book" = Ok PyNone)).
Proof.
  intros Hinfo. rewrite get_company_info_run, get_fundamentals_run, Hinfo.
  cbn [snd]. split; [| split; [| split]].
  - intros e. unfold company_info_of.
    destruct (market_cap_entry info) as [cap | e'] eqn:E; [discriminate |].
    intros [= <-].
    destruct (market_cap_entry_raise info e' E) as (v & Hv & Ht & _ & Hkind).
    exists v. auto.
  - intros Hcap. unfold company_info_of, market_cap_entry.
    rewrite (dict_get_absent _ _ Hcap). cbn. eexists. reflexivity.
  - intros d. unfold company_info_of.
    destruct (market_cap_entry info) as [cap | e'] eqn:E; [| discriminate].
    intros [= <-].
    repeat split; intros H; cbn;
      try (rewrite (dict_get_absent _ _ H); reflexivity).
    unfold market_cap_entry in E. rewrite (dict_get_absent _ _ H) in E.
    cbn in E. injection E as <-. reflexivity.
  - eexists. split; [reflexivity |].
    unfold fundamentals_of.
    repeat split; intros H; rewrite (dict_get_absent _ _ H); reflexivity.
Qed.

(** ** Stopping *)

Lemma never_stops_ret {A : Type} (a : A) : never_stops (ret a).
Proof. intros s. discriminate. Qed.

Lemma never_stops_draw (c : Container) (e : Element) : never_stops (draw c e).
Proof. intros s. discriminate. Qed.

Lemma never_stops_request {A : Type} (c : Call) (answer : nat -> Answer A) :
  never_stops (request c answer).
Proof.
  intros s. unfold request. cbn.
  destruct (answer (length (calls s))); discriminate.
Qed.

Lemma never_stops_bind {A B : Type} (c : M A) (k : A -> M B) :
  never_stops c -> (forall a, never_stops (k a)) -> never_stops (bind c k).
Proof.
  intros Hc Hk s. unfold bind. specialize (Hc s).
  destruct (c s) as [s' [a | e]]; [apply Hk |].
  cbn in *. intros Heq. apply Hc. inversion Heq. reflexivity.
Qed.

Lemma never_stops_lift {A : Type} (r : result A) :
  r <> Raise StopException -> never_stops (lift r).
Proof. intros Hr s. exact Hr. Qed.

Lemma getitem_not_stop (d : PyDict) (k : string) :
  getitem d k <> Raise StopException.
Proof.
  induction d as [| [k' v] d IH]; cbn; [discriminate |].
  destruct (String.eqb k' k); [discriminate | exact IH].
Qed.

Lemma company_info_of_not_stop (info : gmap string PyVal) :
  company_info_of info <> Raise StopException.
Proof.
  unfold company_info_of, market_cap_entry.
  destruct (truthy (dict_get info "marketCap")); [| discriminate].
  destruct (dict_get info "marketCap"); discriminate.
Qed.

Lemma recent_prices_of_not_stop (hist : HistFrame) :
  recent_prices_of hist <> Raise StopException.
Proof.
  unfold recent_prices_of.
  destruct (negb (String.eqb (index_name hist) "Date")); [discriminate |].
  destruct (negb (index_datetimelike hist)); discriminate.
Qed.

Lemma never_stops_st_metric (c : Container) (fund : PyDict) (label : string) :
  never_stops (st_metric c fund label).
Proof.
  unfold st_metric. apply never_stops_bind.
  - apply never_stops_lift, getitem_not_stop.
  - intros v. destruct (metric_accepts v);
      [apply never_stops_draw | intros s; discriminate].
Qed.

Create HintDb stops.
#[local] Hint Resolve never_stops_ret never_stops_draw never_stops_request
  never_stops_lift getitem_not_stop company_info_of_not_stop
  recent_prices_of_not_stop never_stops_st_metric : stops.

Ltac never_stops_tac :=
  repeat first
    [ solve [ auto with stops ]
    | apply never_stops_bind; [| intros ? ] ].

Lemma never_stops_ui_layout (w : World) : never_stops (ui_layout w).
Proof.
  unfold ui_layout, st_text_input, st_button. never_stops_tac.
Qed.

Lemma never_stops_main_content (w : World) (key : PyVal)
    (stock1 stock2 : string) (run_analysis : bool) :
  never_stops (main_content w key stock1 stock2 run_analysis).
Proof.
  unfold main_content.
  destruct (run_analysis && truthy (PyStr stock1) && truthy (PyStr stock2))%bool;
    [| apply never_stops_ret].
  unfold company_info_section, fundamentals_section, fundamentals_column,
    prices_section, ai_section, get_company_info, get_fundamentals,
    get_recent_prices, ticker_info_request.
  never_stops_tac.
Qed.

(** The script up to the main content, when the credential is there. *)
Lemma script_with_credential (w : World) :
  truthy (groq_api_key w) = true ->
  script w initial =
  main_content w (groq_api_key w) (stock1 w) (stock2 w) (run_analysis w)
    (layout_state w).
Proof.
  intros Hkey. unfold groq_api_key in Hkey.
  unfold script, setup, ui_layout, st_text_input, st_button, bind,
    draw, ret, initial.
  rewrite Hkey. reflexivity.
Qed.

(** The script, when the credential is not there. *)
Lemma script_without_credential (w : World) :
  truthy (groq_api_key w) = false ->
  script w initial =
  ({| screen := [ (MainArea, page_config);
                  (MainArea, ErrorBox key_not_found) ];
      calls := [] |},
   Raise StopException).
Proof.
  intros Hkey. unfold groq_api_key in Hkey.
  unfold script, setup, bind, draw, st_stop, raise, initial.
  rewrite Hkey. reflexivity.
Qed.

Lemma outcome_stopped (r : result unit) :
  outcome_of r = Stopped -> r = Raise StopException.
Proof. destruct r as [u | []]; cbn; (discriminate || reflexivity). Qed.


(** C10. When either symbol input is the empty string, the main content is
    skipped, whether or not the button was pressed: no request is sent to
    the market-data provider or to the text-generation client, nothing is
    drawn beyond the title, the caption and the sidebar, and the run
    completes without an exception. *)
Theorem empty_symbol_skips_the_run (w : World) :
  truthy (groq_api_key w) = true ->
  stock1 w = "" \/ stock2 w = "" ->
  run_script w = ({| screen := layout_screen w; calls := [] |}, Completed).
Proof.
  intros Hkey Hempty. unfold run_script.
  rewrite (script_with_credential w Hkey). unfold main_content.
  destruct Hempty as [H1 | H2].
  - rewrite H1. cbn [truthy String.eqb negb].
    rewrite andb_false_r. reflexivity.
  - rewrite H2. cbn [truthy String.eqb negb].
    rewrite andb_false_r. reflexivity.
Qed.

(** ** The data sections *)

#[local] Arguments metric_accepts : simpl never.
#[local] Arguments dict_get : simpl never.

Ltac unfold_sections :=
  unfold data_sections, company_info_section, fundamentals_section,
    fundamentals_column, prices_section, st_metric, get_company_info,
    get_fundamentals, get_recent_prices, ticker_info_request, request, bind,
    draw, ret, lift, raise, layout_state.

Lemma metrics_accepted_true (info : gmap string PyVal) :
  metrics_accepted info = true <->
  metric_accepts (dict_get info "previousClose") = true
  /\ metric_accepts (dict_get info "trailingPE") = true
  /\ metric_accepts (dict_get info "forwardPE") = true
  /\ metric_accepts (dict_get info "priceToBook") = true.
Proof.
  unfold metrics_accepted. cbn [forallb].
  rewrite !andb_true_iff. tauto.
Qed.

(** One step of a run: the four metrics of an accepted [info]. *)
Ltac metrics_step H :=
  let A := fresh "Hacc" in
  pose proof (proj1 (metrics_accepted_true _) H) as A;
  destruct A as (?A & ?A & ?A & ?A);
  repeat match goal with
    | Hm : metric_accepts ?v = true |- context [metric_accepts ?v] =>
        rewrite Hm
    end;
  cbn.

(** One step of a run: a price fetch of which the result is known. *)
Ltac prices_step H :=
  unfold prices_answer in H;
  match type of H with
  | match ticker_history ?w ?n ?t ?p ?i with _ => _ end = _ =>
      destruct (ticker_history w n t p i); cbn;
      [ rewrite H | first [ discriminate H | injection H as <- ] ]; cbn
  end.

(** When the six requests are answered, the values of the fundamentals are
    ones [st.metric] takes and the two series are returned, the data
    sections are drawn in full. *)
Lemma data_sections_run (w : World) (stock1 stock2 : string)
    (i1 i2 f1 f2 : gmap string PyVal) (d1 d2 : PyDict)
    (p1 p2 : list PriceRow) :
  ticker_info w 0 stock1 = Returned i1 -> company_info_of i1 = Ok d1 ->
  ticker_info w 1 stock2 = Returned i2 -> company_info_of i2 = Ok d2 ->
  ticker_info w 2 stock1 = Returned f1 -> metrics_accepted f1 = true ->
  ticker_info w 3 stock2 = Returned f2 -> metrics_accepted f2 = true ->
  prices_answer w 4 stock1 "6mo" "1mo" = Ok p1 ->
  prices_answer w 5 stock2 "6mo" "1mo" = Ok p2 ->
  data_sections w stock1 stock2 (layout_state w) =
  ({| screen := (layout_screen w
                 ++ data_elements stock1 stock2 d1 d2 f1 f2 p1 p2)%list;
      calls := data_requests stock1 stock2 |},
   Ok (d1, d2)).
Proof.
  intros Hi1 Hd1 Hi2 Hd2 Hf1 Ha1 Hf2 Ha2 Hp1 Hp2. unfold_sections. cbn.
  rewrite Hi1. cbn. rewrite Hd1. cbn. rewrite Hi2. cbn. rewrite Hd2. cbn.
  rewrite Hf1. cbn. metrics_step Ha1. rewrite Hf2. cbn. metrics_step Ha2.
  prices_step Hp1. prices_step Hp2. reflexivity.
Qed.

(** Conversely, data sections drawn in full mean six answered requests,
    accepted values and two series. *)
Lemma data_sections_inv (w : World) (stock1 stock2 : string) (sd : State)
    (infos : PyDict * PyDict) :
  data_sections w stock1 stock2 (layout_state w) = (sd, Ok infos) ->
  exists i1 i2 f1 f2 p1 p2,
    ticker_info w 0 stock1 = Returned i1
    /\ company_info_of i1 = Ok (fst infos)
    /\ ticker_info w 1 stock2 = Returned i2
    /\ company_info_of i2 = Ok (snd infos)
    /\ ticker_info w 2 stock1 = Returned f1
    /\ metrics_accepted f1 = true
    /\ ticker_info w 3 stock2 = Returned f2
    /\ metrics_accepted f2 = true
    /\ prices_answer w 4 stock1 "6mo" "1mo" = Ok p1
    /\ prices_answer w 5 stock2 "6mo" "1mo" = Ok p2.
Proof.
  unfold prices_answer. unfold_sections. cbn.
  destruct (ticker_info w 0 stock1) as [i1 |] eqn:Hi1; cbn; [| discriminate].
  destruct (company_info_of i1) as [d1 |] eqn:Hd1; cbn; [| discriminate].
  destruct (ticker_info w 1 stock2) as [i2 |] eqn:Hi2; cbn; [| discriminate].
  destruct (company_info_of i2) as [d2 |] eqn:Hd2; cbn; [| discriminate].
  destruct (ticker_info w 2 stock1) as [f1 |] eqn:Hf1; cbn; [| discriminate].
  destruct (metric_accepts (dict_get f1 "previousClose")) eqn:A1; cbn;
    [| discriminate].
  destruct (metric_accepts (dict_get f1 "trailingPE")) eqn:A2; cbn;
    [| discriminate].
  destruct (metric_accepts (dict_get f1 "forwardPE")) eqn:A3; cbn;
    [| discriminate].
  destruct (metric_accepts (dict_get f1 "priceToBook")) eqn:A4; cbn;
    [| discriminate].
  destruct (ticker_info w 3 stock2) as [f2 |] eqn:Hf2; cbn; [| discriminate].
  destruct (metric_accepts (dict_get f2 "previousClose")) eqn:B1; cbn;
    [| discriminate].
  destruct (metric_accepts (dict_get f2 "trailingPE")) eqn:B2; cbn;
    [| discriminate].
  destruct (metric_accepts (dict_get f2 "forwardPE")) eqn:B3; cbn;
    [| discriminate].
  destruct (metric_accepts (dict_get f2 "priceToBook")) eqn:B4; cbn;
    [| discriminate].
  destruct (ticker_history w 4 stock1 "6mo" "1mo") as [h1 |] eqn:Hh1; cbn;
    [| discriminate].
  destruct (recent_prices_of h1) as [p1 |] eqn:Hp1; cbn; [| discriminate].
  destruct (ticker_history w 5 stock2 "6mo" "1mo") as [h2 |] eqn:Hh2; cbn;
    [| discriminate].
  destruct (recent_prices_of h2) as [p2 |] eqn:Hp2; cbn; [| discriminate].
  intros [= <- <-]. exists i1, i2, f1, f2, p1, p2. cbn.
  repeat split; try reflexivity; try assumption;
    apply metrics_accepted_true; auto.
Qed.

(** The record [get_company_info] returns always has a "Company" entry: the
    provider's [longName]. *)
Lemma company_info_of_company (info : gmap string PyVal) (d : PyDict) :
  company_info_of info = Ok d ->
  getitem d "Company" = Ok (dict_get info "longName").
Proof.
  unfold company_info_of. destruct (market_cap_entry info); [| discriminate].
  intros [= <-]. reflexivity.
Qed.

(** The main content is the data sections followed by the AI analysis. *)
Lemma main_content_split (w : World) (key : PyVal) (stock1 stock2 : string)
    (s : State) :
  truthy (PyStr stock1) = true -> truthy (PyStr stock2) = true ->
  main_content w key stock1 stock2 true s =
  match data_sections w stock1 stock2 s with
  | (sd, Ok infos) => ai_section w key stock1 stock2 (fst infos) (snd infos) sd
  | (sd, Raise e) => (sd, Raise e)
  end.
Proof.
  intros H1 H2. unfold main_content. rewrite H1, H2. cbn [andb].
  unfold data_sections, bind, ret.
  destruct (company_info_section w stock1 stock2 s) as [s1 [infos | e]];
    [| reflexivity].
  destruct (fundamentals_section w stock1 stock2 s1) as [s2 [u | e]];
    [| reflexivity].
  destruct (prices_section w stock1 stock2 s2) as [s3 [u' | e]]; reflexivity.
Qed.

(** The AI analysis, from the two records of the company-info section. *)
Lemma ai_section_run (w : World) (key : PyVal) (stock1 stock2 : string)
    (d1 d2 : PyDict) (c1 c2 : PyVal) (s : State) :
  getitem d1 "Company" = Ok c1 -> getitem d2 "Company" = Ok c2 ->
  ai_section w key stock1 stock2 d1 d2 s =
  let q := query stock1 c1 stock2 c2 in
  let s' := {| screen := (screen s ++ ai_heading)%list;
               calls := (calls s
                         ++ [AgentRun "llama-3.3-70b-versatile" key q])%list |} in
  match agent_run w q with
  | Returned content =>
      ({| screen := (screen s' ++ [(MainArea, Markdown (py_str content))])%list;
          calls := calls s' |}, Ok tt)
  | Failed name => (s', Raise (External name))
  end.
Proof.
  intros H1 H2. unfold ai_section, bind, draw, lift, request, ai_heading.
  cbn. rewrite H1, H2. cbn. rewrite <- !app_assoc. cbn.
  destruct (agent_run w (query stock1 c1 stock2 c2)); cbn;
    rewrite <- ?app_assoc; reflexivity.
Qed.

(** ** Failing fetches *)

Lemma nonempty_truthy (t : string) : t <> "" -> truthy (PyStr t) = true.
Proof.
  intros Ht. cbn. apply negb_true_iff, String.eqb_neq, Ht.
Qed.

Lemma fails_with_not_stop (w : World) (e : exn) (f : DataFailure) :
  fails_with w e f -> e <> StopException.
Proof.
  assert (Hanswer : forall A (a : Answer A), answer_result a <> Raise StopException)
    by (intros A [x | name]; discriminate).
  assert (Hprices : forall n t p i, prices_answer w n t p i <> Raise StopException).
  { intros n t p i. unfold prices_answer.
    destruct (ticker_history w n t p i);
      [apply recent_prices_of_not_stop | discriminate]. }
  destruct f; cbn; intros H Hstop; subst e.
  - exact (Hanswer _ _ H).
  - destruct H as (_ & _ & H). exact (Hanswer _ _ H).
  - destruct H as (_ & _ & _ & _ & H). exact (Hprices _ _ _ _ H).
  - destruct H as (_ & _ & _ & _ & _ & H). exact (Hprices _ _ _ _ H).
Qed.

Lemma outcome_uncaught (e : exn) :
  e <> StopException -> outcome_of (Raise e) = Uncaught e.
Proof. destruct e; (reflexivity || contradiction). Qed.

(** The data sections up to a failing fundamentals or price fetch. *)
Lemma data_sections_failure (w : World) (i1 i2 : gmap string PyVal)
    (d1 d2 : PyDict) (e : exn) (f : DataFailure) :
  ticker_info w 0 (stock1 w) = Returned i1 -> company_info_of i1 = Ok d1 ->
  ticker_info w 1 (stock2 w) = Returned i2 -> company_info_of i2 = Ok d2 ->
  fails_with w e f ->
  data_sections w (stock1 w) (stock2 w) (layout_state w) =
  ({| screen := (layout_screen w
                 ++ info_elements (stock1 w) (stock2 w) d1 d2
                 ++ drawn_before f)%list;
      calls := firstn (requests_sent f) (data_requests (stock1 w) (stock2 w)) |},
   Raise e).
Proof.
  intros Hi1 Hd1 Hi2 Hd2 Hf. unfold_sections. cbn.
  rewrite Hi1. cbn. rewrite Hd1. cbn. rewrite Hi2. cbn. rewrite Hd2. cbn.
  destruct f as [| f1 | f1 f2 | f1 f2 p1]; cbn in Hf.
  - rewrite Hf. reflexivity.
  - destruct Hf as (Hf1 & Ha1 & Hf2). rewrite Hf1. cbn. metrics_step Ha1.
    rewrite Hf2. reflexivity.
  - destruct Hf as (Hf1 & Ha1 & Hf2 & Ha2 & Hp1). rewrite Hf1. cbn.
    metrics_step Ha1. rewrite Hf2. cbn. metrics_step Ha2.
    unfold prices_answer in Hp1.
    destruct (ticker_history w 4 (stock1 w) "6mo" "1mo"); cbn;
      [rewrite Hp1 | injection Hp1 as <-]; reflexivity.
  - destruct Hf as (Hf1 & Ha1 & Hf2 & Ha2 & Hp1 & Hp2). rewrite Hf1. cbn.
    metrics_step Ha1. rewrite Hf2. cbn. metrics_step Ha2.
    prices_step Hp1.
    unfold prices_answer in Hp2.
    destruct (ticker_history w 5 (stock2 w) "6mo" "1mo"); cbn;
      [rewrite Hp2 | injection Hp2 as <-]; reflexivity.
Qed.

Lemma firstn_data_requests_no_agent (n : nat) (a b : string)
    (model : string) (key : PyVal) (prompt : string) :
  ~ In (AgentRun model key prompt) (firstn n (data_requests a b)).
Proof.
  intros Hin.
  assert (Hall : In (AgentRun model key prompt) (data_requests a b)).
  { rewrite <- (firstn_skipn n (data_requests a b)).
    apply in_or_app. left. exact Hin. }
  clear Hin. rename Hall into Hin. cbn in Hin.
  repeat (destruct Hin as [Hin | Hin]; [discriminate Hin |]). exact Hin.
Qed.

(** Membership in a list that is written out. *)
Ltac no_such_element H :=
  repeat (apply in_app_or in H; destruct H as [H | H]);
  cbn in H;
  repeat (destruct H as [H | H]; [discriminate H |]);
  try contradiction.

(** C3, as the script has it. No fetch is guarded: when a fundamentals or
    price fetch fails while both company-info fetches succeeded, the run
    ends there with the exception uncaught.  What was drawn before the
    failing fetch stays on the page: the two company-info tables, for a
    failing fundamentals fetch the metrics of the side before it and none of
    the failing side, for a failing price fetch the eight metrics of both
    sides.  Nothing that comes after the failing fetch is drawn (no chart,
    no AI analysis), and the text-generation client is not asked. *)
Theorem failed_fetch_aborts_the_run (w : World) (i1 i2 : gmap string PyVal)
    (d1 d2 : PyDict) (e : exn) (f : DataFailure) :
  truthy (groq_api_key w) = true ->
  run_analysis w = true -> stock1 w <> "" -> stock2 w <> "" ->
  ticker_info w 0 (stock1 w) = Returned i1 -> company_info_of i1 = Ok d1 ->
  ticker_info w 1 (stock2 w) = Returned i2 -> company_info_of i2 = Ok d2 ->
  fails_with w e f ->
  run_script w =
  ({| screen := (layout_screen w
                 ++ info_elements (stock1 w) (stock2 w) d1 d2
                 ++ drawn_before f)%list;
      calls := firstn (requests_sent f) (data_requests (stock1 w) (stock2 w)) |},
   Uncaught e)
  /\ (forall model key prompt,
        ~ In (AgentRun model key prompt) (calls (fst (run_script w))))
  /\ (forall c label value,
        failed_column f = Some c ->
        ~ In (c, Metric label value) (screen (fst (run_script w))))
  /\ (forall fund1 fund2 x,
        f = Prices1Fails fund1 fund2
        \/ (exists prices1, f = Prices2Fails fund1 fund2 prices1) ->
        In x (metric_elements FCol1 fund1 ++ metric_elements FCol2 fund2)%list ->
        In x (screen (fst (run_script w))))
  /\ (forall c series height,
        ~ In (c, LineChart series height) (screen (fst (run_script w))))
  /\ (forall x, In x ai_heading -> ~ In x (screen (fst (run_script w))))
  /\ ~ degrades_to_not_available (run_script w).
Proof.
  intros Hkey Hrun Hs1 Hs2 Hi1 Hd1 Hi2 Hd2 Hf.
  assert (Heq : run_script w =
    ({| screen := (layout_screen w
                   ++ info_elements (stock1 w) (stock2 w) d1 d2
                   ++ drawn_before f)%list;
        calls := firstn (requests_sent f)
                   (data_requests (stock1 w) (stock2 w)) |},
     Uncaught e)).
  { unfold run_script. rewrite (script_with_credential w Hkey), Hrun.
    rewrite main_content_split by (apply nonempty_truthy; assumption).
    rewrite (data_sections_failure w i1 i2 d1 d2 e f) by assumption.
    rewrite (outcome_uncaught e (fails_with_not_stop w e f Hf)).
    reflexivity. }
  rewrite Heq. cbn [fst snd screen calls].
  split; [reflexivity |]. split; [| split; [| split; [| split; [| split]]]].
  - intros model key prompt. apply firstn_data_requests_no_agent.
  - intros c label value Hcol Hin.
    destruct f; cbn in Hcol; try discriminate Hcol;
      injection Hcol as <-; no_such_element Hin.
  - intros fund1 fund2 x Hprice Hin.
    apply in_or_app. right. apply in_or_app. right.
    destruct Hprice as [-> | (prices1 & ->)]; cbn [drawn_before];
      apply in_or_app; right; rewrite app_assoc; apply in_or_app; left;
      exact Hin.
  - intros c series height Hin. destruct f; no_such_element Hin.
  - intros x Hx Hin. cbn in Hx.
    destruct Hx as [<- | [<- | []]]; destruct f; no_such_element Hin.
  - intros (Hdone & _). discriminate Hdone.
Qed.

(** ** The AI analysis *)

(** C8, as the script has it. The text-generation call is not guarded.  Once
    the data sections have been drawn, a call that fails leaves the script
    with the client's exception uncaught: the run does not complete, and
    the page is the page as the data sections left it (company-info tables,
    metrics, charts) followed by the heading of the AI analysis, with no
    narrative and no message of the script's own.  A call that returns,
    also with [None] or the empty string, lets the run complete, the text
    of the answer drawn after the heading (the text "None" for [None],
    nothing for the empty string). *)
Theorem narrative_failure_keeps_data_sections (w : World) (sd : State)
    (infos : PyDict * PyDict) :
  truthy (groq_api_key w) = true ->
  run_analysis w = true -> stock1 w <> "" -> stock2 w <> "" ->
  data_sections w (stock1 w) (stock2 w) (layout_state w) = (sd, Ok infos) ->
  exists fund1 fund2 prices1 prices2 prompt,
    screen sd = (layout_screen w
                 ++ data_elements (stock1 w) (stock2 w) (fst infos) (snd infos)
                      fund1 fund2 prices1 prices2)%list
    /\ calls (fst (run_script w))
       = (calls sd
          ++ [AgentRun "llama-3.3-70b-versatile" (groq_api_key w) prompt])%list
    /\ (forall name,
          agent_run w prompt = Failed name ->
          snd (run_script w) = Uncaught (External name)
          /\ screen (fst (run_script w)) = (screen sd ++ ai_heading)%list)
    /\ (forall content,
          agent_run w prompt = Returned content ->
          snd (run_script w) = Completed
          /\ screen (fst (run_script w))
             = (screen sd ++ ai_heading
                ++ [(MainArea, Markdown (py_str content))])%list).
Proof.
  intros Hkey Hrun Hs1 Hs2 Hdata.
  destruct (data_sections_inv w _ _ _ _ Hdata)
    as (i1 & i2 & f1 & f2 & p1 & p2 & Hi1 & Hd1 & Hi2 & Hd2
        & Hf1 & Ha1 & Hf2 & Ha2 & Hp1 & Hp2).
  pose proof (data_sections_run w _ _ _ _ _ _ _ _ _ _
                Hi1 Hd1 Hi2 Hd2 Hf1 Ha1 Hf2 Ha2 Hp1 Hp2) as Hrun_data.
  rewrite Hdata in Hrun_data. injection Hrun_data as Hsd _.
  exists f1, f2, p1, p2,
    (query (stock1 w) (dict_get i1 "longName") (stock2 w) (dict_get i2 "longName")).
  split; [rewrite Hsd; reflexivity |].
  assert (Hmain : script w initial =
            ai_section w (groq_api_key w) (stock1 w) (stock2 w)
              (fst infos) (snd infos) sd).
  { rewrite (script_with_credential w Hkey), Hrun.
    rewrite main_content_split by (apply nonempty_truthy; assumption).
    rewrite Hdata. reflexivity. }
  unfold run_script. rewrite Hmain.
  rewrite (ai_section_run w _ _ _ _ _ _ _ sd
             (company_info_of_company _ _ Hd1) (company_info_of_company _ _ Hd2)).
  cbn zeta. split; [| split].
  - destruct (agent_run w _); reflexivity.
  - intros name Hfail. rewrite Hfail. cbn. split; reflexivity.
  - intros content Hret. rewrite Hret. cbn.
    split; [reflexivity | rewrite <- app_assoc; reflexivity].
Qed.

(** ** The prompt *)

Lemma append_assoc (a b c : string) : (a ++ b) ++ c = a ++ (b ++ c).
Proof.
  induction a as [| x a IH]; [reflexivity |].
  change (String x ((a ++ b) ++ c) = String x (a ++ (b ++ c))).
  rewrite IH. reflexivity.
Qed.

Lemma prefix_append (sub post : string) : String.prefix sub (sub ++ post) = true.
Proof.
  induction sub as [| x sub IH]; [destruct post; reflexivity |].
  change (String.prefix (String x sub) (String x (sub ++ post)) = true).
  cbn. destruct (ascii_dec x x) as [_ | Hne]; [exact IH | contradiction].
Qed.

Lemma contains_complete (sub s : string) :
  Substring sub s -> contains sub s = true.
Proof.
  intros (pre & post & ->). induction pre as [| x pre IH].
  - change ("" ++ sub ++ post) with (sub ++ post).
    destruct (sub ++ post) eqn:E; cbn [contains]; rewrite <- E;
      rewrite prefix_append; reflexivity.
  - change (String x pre ++ sub ++ post) with (String x (pre ++ sub ++ post)).
    cbn [contains]. rewrite IH. apply orb_true_r.
Qed.

(** The prompt names a company by the text of its ["Company"] value. *)
Lemma query_names_first (a : string) (c1 : PyVal) (b : string) (c2 : PyVal) :
  Substring (a ++ " (" ++ py_str c1 ++ ")") (query a c1 b c2).
Proof.
  exists "Compare ". eexists. unfold query.
  rewrite !append_assoc. reflexivity.
Qed.

Lemma query_names_second (a : string) (c1 : PyVal) (b : string) (c2 : PyVal) :
  Substring (b ++ " (" ++ py_str c2 ++ ")") (query a c1 b c2).
Proof.
  exists ("Compare " ++ a ++ " (" ++ py_str c1 ++ ") and "). eexists.
  unfold query. rewrite !append_assoc. reflexivity.
Qed.

(** C2, as the script has it. The prompt has no fallback to the symbol:
    where a side's company name is absent upstream (missing, or [None]), the
    prompt sent to the text-generation client has the text "None" in the
    place of the name, so that a symbol "ZZZZ" without a name yields a
    prompt containing "ZZZZ (None)". *)
Theorem absent_name_is_rendered_as_none (w : World) (sd : State)
    (infos : PyDict * PyDict) :
  truthy (groq_api_key w) = true ->
  run_analysis w = true -> stock1 w <> "" -> stock2 w <> "" ->
  data_sections w (stock1 w) (stock2 w) (layout_state w) = (sd, Ok infos) ->
  exists prompt,
    calls (fst (run_script w))
    = (calls sd
       ++ [AgentRun "llama-3.3-70b-versatile" (groq_api_key w) prompt])%list
    /\ (forall i1,
          ticker_info w 0 (stock1 w) = Returned i1 ->
          dict_get i1 "longName" = PyNone ->
          Substring (stock1 w ++ " (None)") prompt)
    /\ (forall i2,
          ticker_info w 1 (stock2 w) = Returned i2 ->
          dict_get i2 "longName" = PyNone ->
          Substring (stock2 w ++ " (None)") prompt).
Proof.
  intros Hkey Hrun Hs1 Hs2 Hdata.
  destruct (data_sections_inv w _ _ _ _ Hdata)
    as (i1 & i2 & f1 & f2 & h1 & h2 & Hi1 & Hd1 & Hi2 & Hd2 & _).
  exists (query (stock1 w) (dict_get i1 "longName")
            (stock2 w) (dict_get i2 "longName")).
  split; [| split].
  - unfold run_script. rewrite (script_with_credential w Hkey), Hrun.
    rewrite main_content_split by (apply nonempty_truthy; assumption).
    rewrite Hdata.
    rewrite (ai_section_run w _ _ _ _ _ _ _ sd
               (company_info_of_company _ _ Hd1)
               (company_info_of_company _ _ Hd2)).
    cbn zeta. destruct (agent_run w _); reflexivity.
  - intros i Hi Hnone. rewrite Hi1 in Hi. injection Hi as <-.
    rewrite Hnone. apply (query_names_first (stock1 w) PyNone).
  - intros i Hi Hnone. rewrite Hi2 in Hi. injection Hi as <-.
    rewrite Hnone. apply (query_names_second _ _ (stock2 w) PyNone).
Qed.

(** ** Recent prices *)

Lemma tail_length {A : Type} (n : nat) (l : list A) :
  (length (tail n l) <= n)%nat.
Proof. unfold tail. rewrite length_skipn. lia. Qed.

Lemma Sorted_skipn {A : Type} (R : A -> A -> Prop) (n : nat) (l : list A) :
  Sorted R l -> Sorted R (skipn n l).
Proof.
  revert l. induction n as [| n IH]; intros l Hl; [exact Hl |].
  destruct l as [| x l]; [constructor |].
  cbn. apply IH. inversion Hl; assumption.
Qed.

Lemma Forall_skipn {A : Type} (P : A -> Prop) (n : nat) (l : list A) :
  Forall P l -> Forall P (skipn n l).
Proof.
  revert l. induction n as [| n IH]; intros l Hl; [exact Hl |].
  destruct l as [| x l]; [constructor |].
  cbn. apply IH. inversion Hl; assumption.
Qed.

(** A map that is increasing on the elements of a sorted list keeps it
    sorted. *)
Lemma Sorted_map_increasing {A B : Type} (R : A -> A -> Prop)
    (R' : B -> B -> Prop) (P : A -> Prop) (g : A -> B) (l : list A) :
  (forall a b, P a -> P b -> R a b -> R' (g a) (g b)) ->
  Forall P l -> Sorted R l -> Sorted R' (map g l).
Proof.
  intros Hg HP Hl. induction Hl as [| x l Hl IH Hhd]; [constructor |].
  inversion HP as [| ? ? Hx HPl]; subst. cbn. constructor; [apply IH, HPl |].
  destruct Hhd as [| y l Hxy]; cbn; constructor.
  inversion HPl; subst. apply Hg; assumption.
Qed.

(** Checking a property of the integers of a range by evaluation. *)
Lemma range_forallb (P : Z -> bool) (n : nat) (lo : Z) :
  holds_from P n lo = true ->
  forall z, lo <= z < lo + Z.of_nat n -> P z = true.
Proof.
  revert lo. induction n as [| n IH]; intros lo Hall z Hz; [lia |].
  cbn [holds_from] in Hall. apply andb_true_iff in Hall as (Hlo & Hrest).
  destruct (Z.eq_dec z lo) as [-> | Hne]; [exact Hlo |].
  apply (IH (lo + 1) Hrest). lia.
Qed.

Lemma four_digit_years :
  holds_from (fun y => String.eqb (pad4 y) (year_string y))
    (Z.to_nat 10000) 0 = true.
Proof. vm_cast_no_check (eq_refl true). Qed.

Lemma pad4_year (y : Z) : 0 <= y <= 9999 -> pad4 y = year_string y.
Proof.
  intros Hy. apply String.eqb_eq.
  apply (range_forallb (fun y => String.eqb (pad4 y) (year_string y))
           (Z.to_nat 10000) 0 four_digit_years).
  lia.
Qed.

Lemma two_digit_fields :
  holds_from
    (fun n => String.eqb (pad2 n)
                (String (digit_char (n / 10)) (String (digit_char (n mod 10)) "")))
    (Z.to_nat 100) 0 = true.
Proof. vm_cast_no_check (eq_refl true). Qed.

Lemma pad2_digits (n : Z) :
  0 <= n <= 99 ->
  pad2 n = String (digit_char (n / 10)) (String (digit_char (n mod 10)) "").
Proof.
  intros Hn. apply String.eqb_eq.
  apply (range_forallb
           (fun n => String.eqb (pad2 n)
              (String (digit_char (n / 10)) (String (digit_char (n mod 10)) "")))
           (Z.to_nat 100) 0 two_digit_fields).
  lia.
Qed.

(** The formatted date of a calendar date, character by character. *)
Lemma strftime_ymd_digits (t : Timestamp) :
  calendar_date t ->
  strftime_ymd t = ymd_string (year t) (month t) (day t).
Proof.
  intros (Hy & Hm & Hd). unfold strftime_ymd, ymd_string.
  rewrite (pad4_year (year t)), (pad2_digits (month t)), (pad2_digits (day t))
    by lia.
  reflexivity.
Qed.

Lemma is_digit_digit_char (k : Z) :
  0 <= k <= 9 -> is_digit (digit_char k) = true.
Proof.
  intros Hk.
  apply (range_forallb (fun k => is_digit (digit_char k)) 10 0);
    [vm_compute; reflexivity | lia].
Qed.

Lemma compare_digit_char (a b : Z) :
  0 <= a <= 9 -> 0 <= b <= 9 ->
  Ascii.compare (digit_char a) (digit_char b) = (a ?= b).
Proof.
  intros Ha Hb. unfold Ascii.compare, digit_char.
  rewrite !N_ascii_embedding by lia.
  rewrite Z2N.inj_compare by lia. apply Z.add_compare_mono_l.
Qed.

Lemma strftime_ymd_format (t : Timestamp) :
  calendar_date t -> is_ymd (strftime_ymd t) = true.
Proof.
  intros Ht. rewrite (strftime_ymd_digits t Ht).
  destruct Ht as (Hy & Hm & Hd). unfold ymd_string, is_ymd.
  cbn [list_ascii_of_string].
  rewrite !is_digit_digit_char by (Z.div_mod_to_equations; lia).
  reflexivity.
Qed.

Lemma compare_digit_string (a b : Z) (s t : string) :
  0 <= a <= 9 -> 0 <= b <= 9 ->
  String.compare (String (digit_char a) s) (String (digit_char b) t) =
  match a ?= b with
  | Eq => String.compare s t
  | o => o
  end.
Proof.
  intros Ha Hb. cbn [String.compare]. rewrite (compare_digit_char a b Ha Hb).
  reflexivity.
Qed.

(** On calendar dates, the order of the formatted strings is the order of
    the dates. *)
Lemma strftime_ymd_increasing (t1 t2 : Timestamp) :
  calendar_date t1 -> calendar_date t2 -> date_lt t1 t2 ->
  str_lt (strftime_ymd t1) (strftime_ymd t2).
Proof.
  intros Ht1 Ht2 Hlt. unfold str_lt.
  rewrite (strftime_ymd_digits t1 Ht1), (strftime_ymd_digits t2 Ht2).
  destruct Ht1 as (Hy1 & Hm1 & Hd1), Ht2 as (Hy2 & Hm2 & Hd2).
  unfold date_lt in Hlt. unfold ymd_string.
  repeat first
    [ rewrite compare_digit_string by (Z.div_mod_to_equations; lia)
    | match goal with
      | |- match (?a ?= ?b) with _ => _ end = Lt =>
          destruct (Z.compare_spec a b);
          [ | reflexivity | exfalso; Z.div_mod_to_equations; lia ]
      | |- String.compare (String "-" ?u) (String "-" ?v) = Lt =>
          change (String.compare u v = Lt)
      end ].
  exfalso. cbn in *. Z.div_mod_to_equations. lia.
Qed.

Lemma recent_prices_of_dated (hist : HistFrame) :
  index_name hist = "Date" -> index_datetimelike hist = true ->
  recent_prices_of hist = Ok (formatted_rows (tail 6 (frame_rows hist))).
Proof.
  intros Hname Hdates. unfold recent_prices_of. rewrite Hname, Hdates.
  reflexivity.
Qed.

Lemma recent_prices_of_undated (hist : HistFrame) :
  index_name hist = "Date" -> index_datetimelike hist = false ->
  recent_prices_of hist
  = Raise (AttributeError "Can only use .dt accessor with datetimelike values").
Proof.
  intros Hname Hdates. unfold recent_prices_of. rewrite Hname, Hdates.
  reflexivity.
Qed.

Lemma recent_prices_of_unnamed (hist : HistFrame) :
  index_name hist <> "Date" ->
  recent_prices_of hist = Raise (KeyError "['Date'] not in index").
Proof.
  intros Hname. unfold recent_prices_of.
  apply String.eqb_neq in Hname. rewrite Hname. reflexivity.
Qed.

(** The last rows of a list, apart from the function that takes them. *)
Lemma tail_split {A : Type} (n : nat) (l : list A) :
  l = (firstn (length l - n) l ++ tail n l)%list
  /\ length (tail n l) = Nat.min n (length l).
Proof.
  split; [symmetry; apply firstn_skipn |].
  unfold tail. rewrite length_skipn. lia.
Qed.

(** C4, as the script has it. For the default period and interval,
    [get_recent_prices] returns a series when the frame of the provider has
    an index of datetimes named "Date"; on the frame the provider returns
    when it has no data (an index that holds no datetimes) it raises an
    [AttributeError], and a [KeyError] when the index has another name.  The
    series returned is made of the last rows of the history, six of them or
    all when there are fewer, in the order of the provider, close and volume
    unchanged: the function neither sorts nor removes rows of the same day.
    Each date is a string of the form YYYY-MM-DD when those rows hold
    calendar dates, and the dates of the series are strictly increasing
    when the dates of those rows are. *)
Theorem recent_prices_are_six_dated_points (w : World) (symbol : string)
    (s : State) (hist : HistFrame) :
  ticker_history w (length (calls s)) symbol "6mo" "1mo" = Returned hist ->
  (index_name hist = "Date" -> index_datetimelike hist = true ->
   exists prices older recent,
     snd (get_recent_prices w symbol "6mo" "1mo" s) = Ok prices
     /\ frame_rows hist = (older ++ recent)%list
     /\ length recent = Nat.min 6 (length (frame_rows hist))
     /\ (length prices <= 6)%nat
     /\ map Date prices = map (fun r => strftime_ymd (h_date r)) recent
     /\ map Close prices = map h_close recent
     /\ map Volume prices = map h_volume recent
     /\ (Forall calendar_date (map h_date recent) ->
         Forall (fun d => is_ymd d = true) (map Date prices)
         /\ (Sorted date_lt (map h_date recent) ->
             Sorted str_lt (map Date prices))))
  /\ (index_name hist = "Date" -> index_datetimelike hist = false ->
      snd (get_recent_prices w symbol "6mo" "1mo" s)
      = Raise (AttributeError "Can only use .dt accessor with datetimelike values"))
  /\ (index_name hist <> "Date" ->
      snd (get_recent_prices w symbol "6mo" "1mo" s)
      = Raise (KeyError "['Date'] not in index")).
Proof.
  intros Hhist. rewrite get_recent_prices_run. cbn [snd].
  unfold prices_answer. rewrite Hhist. split; [| split].
  - intros Hname Hdates. rewrite (recent_prices_of_dated hist Hname Hdates).
    destruct (tail_split 6 (frame_rows hist)) as (Hsplit & Hlen).
    exists (formatted_rows (tail 6 (frame_rows hist))),
      (firstn (length (frame_rows hist) - 6) (frame_rows hist)),
      (tail 6 (frame_rows hist)).
    unfold formatted_rows. rewrite length_map, !map_map. cbn [Date Close Volume].
    split; [reflexivity |]. split; [exact Hsplit |]. split; [exact Hlen |].
    split; [rewrite Hlen; lia |]. repeat (split; [reflexivity |]).
    intros Hcal. rewrite <- (map_map h_date strftime_ymd). split.
    + apply List.Forall_forall. intros d Hd.
      apply in_map_iff in Hd as (t & <- & Ht).
      apply strftime_ymd_format.
      exact (proj1 (List.Forall_forall calendar_date _) Hcal t Ht).
    + intros Hsorted.
      apply (Sorted_map_increasing date_lt str_lt calendar_date);
        [| exact Hcal | exact Hsorted].
      intros a b Ha Hb Hab. apply strftime_ymd_increasing; assumption.
  - intros Hname Hdates. apply recent_prices_of_undated; assumption.
  - intros Hname. apply recent_prices_of_unnamed, Hname.
Qed.

(** ** Further properties of the helper functions *)

(** X1. When the provider fails, [get_company_info] raises its exception
    unchanged.  When the provider answers with an [info] dictionary,
    [get_company_info] raises in exactly two cases: the market cap is a
    non-empty string (the [ValueError] of the thousands format), or it is
    another truthy object, a non-empty list or dict for one (the [TypeError]
    of the format).  An empty string or an empty list is falsy and gives
    "N/A" like an absent value. *)
Theorem string_market_cap_raises (w : World) (symbol : string) (s : State) :
  (forall name,
     ticker_info w (length (calls s)) symbol = Failed name ->
     snd (get_company_info w symbol s) = Raise (External name))
  /\ (forall info,
        ticker_info w (length (calls s)) symbol = Returned info ->
        forall e,
          snd (get_company_info w symbol s) = Raise e <->
          (exists t,
             info !! "marketCap" = Some (PyStr t) /\ t <> ""
             /\ e = ValueError "Cannot specify ',' with 's'.")
          \/ (exists type_name text,
                info !! "marketCap" = Some (PyObject type_name true text)
                /\ e = TypeError ("unsupported format string passed to "
                                  ++ type_name ++ ".__format__"))).
Proof.
  split.
  - intros name Hfail. rewrite get_company_info_run, Hfail. reflexivity.
  - intros info Hinfo e. rewrite get_company_info_run, Hinfo. cbn [snd].
    unfold company_info_of. split.
    + destruct (market_cap_entry info) as [cap | e'] eqn:E; [discriminate |].
      intros [= <-].
      destruct (market_cap_entry_raise info e' E)
        as (v & Hv & Htruthy & Hformat & [(t & ->) | (ty & truth & text & ->)]).
      * left. exists t. split; [exact Hv |]. split.
        -- intros ->. discriminate Htruthy.
        -- cbn in Hformat. injection Hformat as <-. reflexivity.
      * right. cbn in Htruthy. subst truth. exists ty, text.
        split; [exact Hv |]. cbn in Hformat. injection Hformat as <-.
        reflexivity.
    + unfold market_cap_entry.
      intros [(t & Hv & Hne & ->) | (ty & text & Hv & ->)];
        rewrite (dict_get_present _ _ _ Hv); cbn.
      * apply String.eqb_neq in Hne. rewrite Hne. reflexivity.
      * reflexivity.
Qed.

(** X2. Whatever the provider answers, a record returned by
    [get_company_info] has the four keys "Company", "Sector", "Industry",
    "Market Cap" in this order; the first three values are the provider's
    [longName], [sector] and [industry] unchanged, and the market cap is
    always a string: "N/A" when the provider's value is falsy (absent,
    [None], zero, the empty string), and a string starting with a dollar sign
    otherwise. *)
Theorem company_record_shape (w : World) (symbol : string) (s : State)
    (info : gmap string PyVal) (d : PyDict) :
  ticker_info w (length (calls s)) symbol = Returned info ->
  snd (get_company_info w symbol s) = Ok d ->
  exists cap,
    d = [ ("Company", dict_get info "longName");
          ("Sector", dict_get info "sector");
          ("Industry", dict_get info "industry");
          ("Market Cap", PyStr cap) ]
    /\ (truthy (dict_get info "marketCap") = false -> cap = "N/A")
    /\ (truthy (dict_get info "marketCap") = true ->
        exists digits, cap = String "$" digits).
Proof.
  intros Hinfo. rewrite get_company_info_run, Hinfo. cbn [snd].
  unfold company_info_of, market_cap_entry.
  destruct (truthy (dict_get info "marketCap")) eqn:Htruthy.
  - destruct (format_comma (dict_get info "marketCap")) as [digits | e];
      [| discriminate].
    intros [= <-]. exists ("$" ++ digits). split; [reflexivity |].
    split; [discriminate |]. intros _. exists digits. reflexivity.
  - intros [= <-]. exists "N/A". split; [reflexivity |].
    split; [reflexivity | discriminate].
Qed.

(** X3. [get_fundamentals] does no formatting: the four values of the record
    are the provider's values for [previousClose], [trailingPE], [forwardPE]
    and [priceToBook], whatever their type, and [None] for a missing key. A
    failure of the provider is raised unchanged, after the request has been
    recorded. *)
Theorem fundamentals_are_passed_through (w : World) (symbol : string)
    (s : State) :
  calls (fst (get_fundamentals w symbol s))
  = (calls s ++ [InfoRequest symbol])%list
  /\ screen (fst (get_fundamentals w symbol s)) = screen s
  /\ (forall info,
        ticker_info w (length (calls s)) symbol = Returned info ->
        exists f,
          snd (get_fundamentals w symbol s) = Ok f
          /\ map fst f
             = ["Previous Close"; "Trailing P/E"; "Forward P/E"; "Price/Book"]
          /\ forall key label,
               In (key, label)
                  [ ("previousClose", "Previous Close");
                    ("trailingPE", "Trailing P/E");
                    ("forwardPE", "Forward P/E");
                    ("priceToBook", "Price/Book") ] ->
               getitem f label
               = Ok (match info !! key with Some v => v | None => PyNone end))
  /\ (forall name,
        ticker_info w (length (calls s)) symbol = Failed name ->
        snd (get_fundamentals w symbol s) = Raise (External name)).
Proof.
  rewrite get_fundamentals_run. cbn [fst snd after_request calls screen].
  split; [reflexivity |]. split; [reflexivity |]. split.
  - intros info Hinfo. rewrite Hinfo. eexists. split; [reflexivity |].
    split; [reflexivity |]. intros key label Hin. cbn in Hin.
    repeat (destruct Hin as [[= <- <-] | Hin]; [reflexivity |]).
    contradiction.
  - intros name Hfail. rewrite Hfail. reflexivity.
Qed.

(** ** Further properties of a run *)

(** X4. A run completes with the whole page drawn when every request is
    answered and nothing the script does with the answers raises: both
    market caps are formatted (each record is returned), the values of the
    fundamentals are ones [st.metric] takes, and both series are returned
    (each frame has an index of datetimes named "Date").  Such a run sends
    seven requests, in this order: the [info] of each symbol for the
    company-info section, the [info] of each symbol again for the
    fundamentals (nothing is kept from the first fetch), the two histories,
    and one request to the text-generation client, with the model
    "llama-3.3-70b-versatile", the credential of the environment and the
    prompt made from the names of the first two answers. *)
Theorem answered_run_is_complete (w : World) (i1 i2 f1 f2 : gmap string PyVal)
    (d1 d2 : PyDict) (p1 p2 : list PriceRow) (content : PyVal) :
  truthy (groq_api_key w) = true ->
  run_analysis w = true -> stock1 w <> "" -> stock2 w <> "" ->
  ticker_info w 0 (stock1 w) = Returned i1 -> company_info_of i1 = Ok d1 ->
  ticker_info w 1 (stock2 w) = Returned i2 -> company_info_of i2 = Ok d2 ->
  ticker_info w 2 (stock1 w) = Returned f1 -> metrics_accepted f1 = true ->
  ticker_info w 3 (stock2 w) = Returned f2 -> metrics_accepted f2 = true ->
  prices_answer w 4 (stock1 w) "6mo" "1mo" = Ok p1 ->
  prices_answer w 5 (stock2 w) "6mo" "1mo" = Ok p2 ->
  agent_run w (query (stock1 w) (dict_get i1 "longName")
                 (stock2 w) (dict_get i2 "longName")) = Returned content ->
  run_script w =
  ({| screen := (layout_screen w
                 ++ data_elements (stock1 w) (stock2 w) d1 d2 f1 f2 p1 p2
                 ++ ai_heading
                 ++ [(MainArea, Markdown (py_str content))])%list;
      calls := (data_requests (stock1 w) (stock2 w)
                ++ [AgentRun "llama-3.3-70b-versatile" (groq_api_key w)
                      (query (stock1 w) (dict_get i1 "longName")
                         (stock2 w) (dict_get i2 "longName"))])%list |},
   Completed).
Proof.
  intros Hkey Hrun Hs1 Hs2 Hi1 Hd1 Hi2 Hd2 Hf1 Ha1 Hf2 Ha2 Hp1 Hp2 Hagent.
  unfold run_script. rewrite (script_with_credential w Hkey), Hrun.
  rewrite main_content_split by (apply nonempty_truthy; assumption).
  rewrite (data_sections_run w _ _ _ _ _ _ _ _ _ _
             Hi1 Hd1 Hi2 Hd2 Hf1 Ha1 Hf2 Ha2 Hp1 Hp2).
  cbn [fst snd].
  rewrite (ai_section_run w _ _ _ _ _ _ _ _
             (company_info_of_company _ _ Hd1) (company_info_of_company _ _ Hd2)).
  cbn zeta. rewrite Hagent. cbn [screen calls outcome_of].
  rewrite <- !app_assoc. reflexivity.
Qed.

(** X5. A company-info fetch is not guarded either.  When the provider fails
    on the first symbol, the run ends with its exception after the first
    subheader, with one request sent; when it fails on the second symbol,
    the first table and the second subheader are on the page and two
    requests have been sent.  Nothing else is drawn or asked. *)
Theorem company_info_failure_aborts_the_run (w : World) (name : string) :
  truthy (groq_api_key w) = true ->
  run_analysis w = true -> stock1 w <> "" -> stock2 w <> "" ->
  (ticker_info w 0 (stock1 w) = Failed name ->
   run_script w =
   ({| screen := (layout_screen w
                  ++ [ (MainArea, Columns 2);
                       (Col1, Subheader ("🏢 " ++ stock1 w ++ " Company Info")) ])%list;
       calls := [InfoRequest (stock1 w)] |},
    Uncaught (External name)))
  /\ (forall i1 d1,
        ticker_info w 0 (stock1 w) = Returned i1 ->
        company_info_of i1 = Ok d1 ->
        ticker_info w 1 (stock2 w) = Failed name ->
        run_script w =
        ({| screen := (layout_screen w
                       ++ [ (MainArea, Columns 2);
                            (Col1, Subheader ("🏢 " ++ stock1 w ++ " Company Info"));
                            (Col1, Table ["Metric"; "Value"] d1);
                            (Col2, Subheader ("🏢 " ++ stock2 w ++ " Company Info")) ])%list;
            calls := [InfoRequest (stock1 w); InfoRequest (stock2 w)] |},
         Uncaught (External name))).
Proof.
  intros Hkey Hrun Hs1 Hs2.
  assert (Hmain : run_script w =
            let '(st, r) := main_content w (groq_api_key w) (stock1 w) (stock2 w)
                              true (layout_state w) in (st, outcome_of r)).
  { unfold run_script. rewrite (script_with_credential w Hkey), Hrun.
    reflexivity. }
  rewrite Hmain. unfold main_content.
  rewrite !nonempty_truthy by assumption. cbn [andb].
  split.
  - intros Hfail. unfold_sections. cbn. rewrite Hfail. reflexivity.
  - intros i1 d1 Hi1 Hd1 Hfail. unfold_sections. cbn.
    rewrite Hi1. cbn. rewrite Hd1. cbn. rewrite Hfail. reflexivity.
Qed.

Lemma run_with_credential (w : World) :
  truthy (groq_api_key w) = true ->
  run_script w =
  (fst (main_content w (groq_api_key w) (stock1 w) (stock2 w) (run_analysis w)
          (layout_state w)),
   outcome_of
     (snd (main_content w (groq_api_key w) (stock1 w) (stock2 w)
             (run_analysis w) (layout_state w)))).
Proof.
  intros Hkey. unfold run_script. rewrite (script_with_credential w Hkey).
  destruct (main_content _ _ _ _ _ _). reflexivity.
Qed.

(** Every way the main content can go, one answer after the other. *)
Ltac main_content_cases :=
  unfold main_content, ai_section; unfold_sections; cbn;
  repeat match goal with
    | H : company_info_of ?i = Ok ?d |- context [getitem ?d "Company"] =>
        rewrite (company_info_of_company i d H); cbn
    | |- context [ticker_info ?w ?n ?t] =>
        destruct (ticker_info w n t) eqn:?; cbn
    | |- context [ticker_history ?w ?n ?t ?p ?i] =>
        destruct (ticker_history w n t p i) eqn:?; cbn
    | |- context [company_info_of ?i] =>
        destruct (company_info_of i) eqn:?; cbn
    | |- context [recent_prices_of ?h] =>
        destruct (recent_prices_of h) eqn:?; cbn
    | |- context [metric_accepts ?v] =>
        destruct (metric_accepts v) eqn:?; cbn
    | |- context [agent_run ?w ?q] =>
        destruct (agent_run w q) eqn:?; cbn
    end.

(** X7. The requests of a run are always a beginning of the same sequence:
    [info] of the first symbol, [info] of the second, both again, the two
    histories, then the text-generation request.  A request is never sent
    out of this order, never repeated beyond it, and the text-generation
    client is asked only after all six provider requests. *)
Theorem requests_follow_a_fixed_order (w : World) :
  (exists n,
     calls (fst (run_script w))
     = firstn n (data_requests (stock1 w) (stock2 w)))
  \/ (exists prompt,
        calls (fst (run_script w))
        = (data_requests (stock1 w) (stock2 w)
           ++ [AgentRun "llama-3.3-70b-versatile" (groq_api_key w) prompt])%list).
Proof.
  pattern (calls (fst (run_script w))).
  match goal with |- ?P _ => set (Q := P) end.
  destruct (truthy (groq_api_key w)) eqn:Hkey.
  - rewrite (run_with_credential w Hkey). cbn [fst].
    unfold main_content.
    destruct (run_analysis w && truthy (PyStr (stock1 w))
              && truthy (PyStr (stock2 w)))%bool.
    + main_content_cases; subst Q; cbn;
        first [ right; eexists; reflexivity
              | left; exists 1%nat; reflexivity
              | left; exists 2%nat; reflexivity
              | left; exists 3%nat; reflexivity
              | left; exists 4%nat; reflexivity
              | left; exists 5%nat; reflexivity
              | left; exists 6%nat; reflexivity ].
    + subst Q. left. exists 0%nat. reflexivity.
  - unfold run_script. rewrite (script_without_credential w Hkey).
    subst Q. left. exists 0%nat. reflexivity.
Qed.

(** X8. Nothing that happens later takes the top of the page away.  The page
    configuration is the first call of every run; and when the credential is
    there, the title, the caption and the sidebar with its two inputs and
    its button are on the page however the run ends, so the symbols can
    always be entered again. *)
Theorem layout_is_always_drawn (w : World) :
  (exists more,
     screen (fst (run_script w)) = (MainArea, page_config) :: more)
  /\ (truthy (groq_api_key w) = true ->
      exists more,
        screen (fst (run_script w)) = (layout_screen w ++ more)%list).
Proof.
  assert (Hlayout : truthy (groq_api_key w) = true ->
            exists more,
              screen (fst (run_script w)) = (layout_screen w ++ more)%list).
  { intros Hkey. pattern (screen (fst (run_script w))).
    match goal with |- ?P _ => set (Q := P) end.
    rewrite (run_with_credential w Hkey). cbn [fst].
    unfold main_content.
    destruct (run_analysis w && truthy (PyStr (stock1 w))
              && truthy (PyStr (stock2 w)))%bool.
    - main_content_cases; subst Q; cbn; eexists; reflexivity.
    - subst Q. exists []. symmetry. apply app_nil_r. }
  split; [| exact Hlayout].
  destruct (truthy (groq_api_key w)) eqn:Hkey.
  - destruct (Hlayout eq_refl) as (more & ->). eexists. reflexivity.
  - unfold run_script. rewrite (script_without_credential w Hkey).
    eexists. reflexivity.
Qed.

(** X9. With the credential there, the provider is asked exactly when the
    button was pressed and both symbols are non-empty, and the first thing
    asked is then the [info] of the first symbol.  Otherwise (button not
    pressed, or a symbol empty) the run completes with the layout alone. *)
Theorem provider_is_asked_exactly_under_the_guard (w : World) :
  truthy (groq_api_key w) = true ->
  ((run_analysis w = true /\ stock1 w <> "" /\ stock2 w <> "")
   <-> exists rest,
         calls (fst (run_script w)) = InfoRequest (stock1 w) :: rest)
  /\ (~ (run_analysis w = true /\ stock1 w <> "" /\ stock2 w <> "") ->
      run_script w = (layout_state w, Completed)).
Proof.
  intros Hkey.
  assert (Hguard :
    (run_analysis w && truthy (PyStr (stock1 w)) && truthy (PyStr (stock2 w)))%bool
    = true <-> run_analysis w = true /\ stock1 w <> "" /\ stock2 w <> "").
  { cbn [truthy]. rewrite !andb_true_iff, !negb_true_iff, !String.eqb_neq.
    tauto. }
  assert (Hasked :
    (run_analysis w && truthy (PyStr (stock1 w)) && truthy (PyStr (stock2 w)))%bool
    = true ->
    exists rest, calls (fst (run_script w)) = InfoRequest (stock1 w) :: rest).
  { intros Hg. pattern (calls (fst (run_script w))).
    match goal with |- ?P _ => set (Q := P) end.
    rewrite (run_with_credential w Hkey). cbn [fst].
    unfold main_content. rewrite Hg.
    main_content_cases; subst Q; cbn; eexists; reflexivity. }
  assert (Hskipped :
    (run_analysis w && truthy (PyStr (stock1 w)) && truthy (PyStr (stock2 w)))%bool
    = false ->
    run_script w = (layout_state w, Completed)).
  { intros Hg. rewrite (run_with_credential w Hkey).
    unfold main_content. rewrite Hg. reflexivity. }
  split; [split |].
  - intros Hyes. apply Hasked, Hguard, Hyes.
  - intros (rest & Hrest). apply Hguard.
    destruct (run_analysis w && truthy (PyStr (stock1 w))
              && truthy (PyStr (stock2 w)))%bool; [reflexivity |].
    rewrite (Hskipped eq_refl) in Hrest. discriminate Hrest.
  - intros Hno. apply Hskipped.
    destruct (run_analysis w && truthy (PyStr (stock1 w))
              && truthy (PyStr (stock2 w)))%bool; [| reflexivity].
    exfalso. apply Hno, Hguard. reflexivity.
Qed.

(** X10. The credential is tested by its truth value: an empty string stops
    the script with the same error page as a missing variable, and any
    non-empty string, whatever it is, lets the script go on to the layout.
    A run ends stopped exactly when the credential is missing or empty. *)
Theorem credential_is_tested_by_truth_value (w : World) :
  (getenv w "GROQ_API_KEY" = Some "" ->
   run_script w =
   ({| screen := [ (MainArea, page_config);
                   (MainArea, ErrorBox key_not_found) ];
       calls := [] |},
    Stopped))
  /\ (forall key, getenv w "GROQ_API_KEY" = Some key -> key <> "" ->
        exists more,
          screen (fst (run_script w)) = (layout_screen w ++ more)%list)
  /\ (snd (run_script w) = Stopped <->
      getenv w "GROQ_API_KEY" = None \/ getenv w "GROQ_API_KEY" = Some "").
Proof.
  assert (Hfalsy : truthy (groq_api_key w) = false <->
            getenv w "GROQ_API_KEY" = None \/ getenv w "GROQ_API_KEY" = Some "").
  { unfold groq_api_key, os_getenv.
    destruct (getenv w "GROQ_API_KEY") as [key |]; cbn.
    - rewrite negb_false_iff, String.eqb_eq. split.
      + intros ->. right. reflexivity.
      + intros [H | [= ->]]; [discriminate H | reflexivity].
    - split; auto. }
  split; [| split; [| split]].
  - intros Hempty. unfold run_script.
    rewrite script_without_credential; [reflexivity |].
    apply Hfalsy. right. exact Hempty.
  - intros key Hsome Hne.
    assert (Hkey : truthy (groq_api_key w) = true).
    { unfold groq_api_key, os_getenv. rewrite Hsome. cbn.
      apply negb_true_iff, String.eqb_neq, Hne. }
    pattern (screen (fst (run_script w))).
    match goal with |- ?P _ => set (Q := P) end.
    rewrite (run_with_credential w Hkey). cbn [fst].
    unfold main_content.
    destruct (run_analysis w && truthy (PyStr (stock1 w))
              && truthy (PyStr (stock2 w)))%bool.
    + main_content_cases; subst Q; cbn; eexists; reflexivity.
    + subst Q. exists []. symmetry. apply app_nil_r.
  - intros Hstop. apply Hfalsy.
    destruct (truthy (groq_api_key w)) eqn:Hkey; [| reflexivity].
    exfalso. rewrite (run_with_credential w Hkey) in Hstop. cbn [snd] in Hstop.
    apply outcome_stopped in Hstop.
    exact (never_stops_main_content w _ _ _ _ _ Hstop).
  - intros Hnone. apply Hfalsy in Hnone. unfold run_script.
    rewrite (script_without_credential w Hnone). reflexivity.
Qed.

(** ** Further properties of the formats *)

(** X11. For any period and interval, what [get_recent_prices] does with an
    answer of the provider is decided by the frame.  When the column of the
    index is not named "Date" (the index of an intraday interval is named
    "Datetime") it raises a [KeyError]; when the index is named "Date" but
    holds no datetimes (the frame of a symbol without data) it raises an
    [AttributeError].  Otherwise it returns the end of the history: as many
    rows as the smaller of 6 and the length of the history, their close
    prices and volumes unchanged and in the same order; only older rows are
    dropped, none when the history has at most six rows, and a frame of
    datetimes without rows gives an empty series. *)
Theorem recent_prices_are_the_last_rows (w : World)
    (symbol period interval : string) (s : State) (hist : HistFrame) :
  ticker_history w (length (calls s)) symbol period interval = Returned hist ->
  (index_name hist <> "Date" ->
   snd (get_recent_prices w symbol period interval s)
   = Raise (KeyError "['Date'] not in index"))
  /\ (index_name hist = "Date" -> index_datetimelike hist = false ->
      snd (get_recent_prices w symbol period interval s)
      = Raise (AttributeError "Can only use .dt accessor with datetimelike values"))
  /\ (index_name hist = "Date" -> index_datetimelike hist = true ->
      exists prices older recent,
        snd (get_recent_prices w symbol period interval s) = Ok prices
        /\ frame_rows hist = (older ++ recent)%list
        /\ length prices = Nat.min 6 (length (frame_rows hist))
        /\ map Close prices = map h_close recent
        /\ map Volume prices = map h_volume recent
        /\ map Date prices = map (fun r => strftime_ymd (h_date r)) recent
        /\ ((length (frame_rows hist) <= 6)%nat -> older = [])).
Proof.
  intros Hhist. rewrite get_recent_prices_run. cbn [snd].
  unfold prices_answer. rewrite Hhist. split; [| split].
  - intros Hname. apply recent_prices_of_unnamed, Hname.
  - intros Hname Hdates. apply recent_prices_of_undated; assumption.
  - intros Hname Hdates. rewrite (recent_prices_of_dated hist Hname Hdates).
    destruct (tail_split 6 (frame_rows hist)) as (Hsplit & Hlen).
    exists (formatted_rows (tail 6 (frame_rows hist))),
      (firstn (length (frame_rows hist) - 6) (frame_rows hist)),
      (tail 6 (frame_rows hist)).
    unfold formatted_rows. rewrite length_map, !map_map. cbn [Close Volume Date].
    split; [reflexivity |]. split; [exact Hsplit |]. split; [exact Hlen |].
    repeat (split; [reflexivity |]).
    intros Hshort.
    replace (length (frame_rows hist) - 6)%nat with 0%nat by lia. reflexivity.
Qed.

Lemma compare_refl (a : string) : String.compare a a = Eq.
Proof.
  induction a as [| c a IH]; [reflexivity |].
  cbn [String.compare]. unfold Ascii.compare. rewrite N.compare_refl. exact IH.
Qed.

(** X12. On calendar dates the date format is faithful to the calendar: one
    formatted date is below another, as strings, exactly when its date is
    earlier, and two formatted dates are equal exactly when year, month and
    day are (the time of day is not in the string). *)
Theorem formatted_dates_order_as_dates (t1 t2 : Timestamp) :
  calendar_date t1 -> calendar_date t2 ->
  (str_lt (strftime_ymd t1) (strftime_ymd t2) <-> date_lt t1 t2)
  /\ (strftime_ymd t1 = strftime_ymd t2 <->
      year t1 = year t2 /\ month t1 = month t2 /\ day t1 = day t2).
Proof.
  intros Hc1 Hc2.
  assert (Hsame : year t1 = year t2 /\ month t1 = month t2 /\ day t1 = day t2 ->
                  strftime_ymd t1 = strftime_ymd t2).
  { intros (Hy & Hm & Hd). unfold strftime_ymd. rewrite Hy, Hm, Hd. reflexivity. }
  assert (Hcases : date_lt t1 t2
                   \/ (year t1 = year t2 /\ month t1 = month t2 /\ day t1 = day t2)
                   \/ date_lt t2 t1) by (unfold date_lt; lia).
  split; split.
  - intros Hlt. unfold str_lt in Hlt.
    destruct Hcases as [H | [H | H]]; [exact H | |].
    + rewrite (Hsame H), compare_refl in Hlt. discriminate Hlt.
    + pose proof (strftime_ymd_increasing t2 t1 Hc2 Hc1 H) as Hgt.
      unfold str_lt in Hgt. rewrite String.compare_antisym, Hgt in Hlt.
      discriminate Hlt.
  - apply strftime_ymd_increasing; assumption.
  - intros Heq. destruct Hcases as [H | [H | H]]; [| exact H |].
    + pose proof (strftime_ymd_increasing t1 t2 Hc1 Hc2 H) as Hlt.
      unfold str_lt in Hlt. rewrite Heq, compare_refl in Hlt. discriminate Hlt.
    + pose proof (strftime_ymd_increasing t2 t1 Hc2 Hc1 H) as Hlt.
      unfold str_lt in Hlt. rewrite Heq, compare_refl in Hlt. discriminate Hlt.
  - exact Hsame.
Qed.

Lemma group_thousands_length (digits : string) :
  String.length (group_thousands digits)
  = (String.length digits + (String.length digits - 1) / 3)%nat.
Proof.
  induction digits as [| c rest IH]; [reflexivity |].
  cbn [group_thousands String.length].
  replace (S (String.length rest) - 1)%nat with (String.length rest) by lia.
  destruct (Nat.ltb_spec 0 (String.length rest)) as [Hpos | Hzero];
    destruct (Nat.eqb_spec (Nat.modulo (String.length rest) 3) 0) as [Hmod | Hmod];
    cbn [andb String.length]; rewrite IH;
    pose proof (Nat.div_mod_eq (String.length rest) 3) as Hr;
    pose proof (Nat.div_mod_eq (String.length rest - 1) 3) as Hr1;
    pose proof (Nat.mod_upper_bound (String.length rest) 3) as Hb;
    pose proof (Nat.mod_upper_bound (String.length rest - 1) 3) as Hb1;
    lia.
Qed.

Lemma append_length (a b : string) :
  String.length (a ++ b) = (String.length a + String.length b)%nat.
Proof.
  induction a as [| x a IH]; [reflexivity |].
  change (S (String.length (a ++ b))
          = S (String.length a + String.length b)%nat).
  rewrite IH. reflexivity.
Qed.

(** X13. The thousands format of an integer only adds separators: taking
    the commas out of [format(z, ",")] gives [str(z)] back, and the number
    of commas is that of the full groups of three digits before the last,
    (digits - 1) / 3 for the digits of the absolute value. *)
Theorem thousands_format_keeps_the_digits (z : Z) :
  remove_commas (int_comma z) = int_str z
  /\ String.length (int_comma z)
     = (String.length (int_str z)
        + (String.length (int_str (Z.abs z)) - 1) / 3)%nat.
Proof.
  split; [apply remove_commas_int_comma |].
  unfold int_comma. destruct (Z.ltb_spec z 0) as [Hneg | Hpos].
  - rewrite (int_str_negative z Hneg), !append_length, group_thousands_length.
    replace (Z.abs z) with (- z) by lia. cbn [String.length]. lia.
  - rewrite group_thousands_length, Z.abs_eq by lia. reflexivity.
Qed.

(** X14. When the data sections have been drawn and both company names are
    known, the prompt sent to the text-generation client is the fixed
    template filled with the two symbols and the two names of the
    company-info answers: it contains "symbol (name)" for each side, and
    nothing of the fundamentals or of the price histories. *)
Theorem prompt_names_both_companies (w : World) (sd : State)
    (infos : PyDict * PyDict) (i1 i2 : gmap string PyVal) (n1 n2 : string) :
  truthy (groq_api_key w) = true ->
  run_analysis w = true -> stock1 w <> "" -> stock2 w <> "" ->
  data_sections w (stock1 w) (stock2 w) (layout_state w) = (sd, Ok infos) ->
  ticker_info w 0 (stock1 w) = Returned i1 ->
  i1 !! "longName" = Some (PyStr n1) ->
  ticker_info w 1 (stock2 w) = Returned i2 ->
  i2 !! "longName" = Some (PyStr n2) ->
  exists prompt,
    calls (fst (run_script w))
    = (calls sd
       ++ [AgentRun "llama-3.3-70b-versatile" (groq_api_key w) prompt])%list
    /\ prompt
       = "Compare " ++ stock1 w ++ " (" ++ n1 ++ ") and "
           ++ stock2 w ++ " (" ++ n2 ++ "). "
           ++ "Analyze fundamentals, recent price performance, risks, and give an investment recommendation. "
           ++ "Be concise and format your response as a professional financial analyst report with bullet points and sections."
    /\ Substring (stock1 w ++ " (" ++ n1 ++ ")") prompt
    /\ Substring (stock2 w ++ " (" ++ n2 ++ ")") prompt.
Proof.
  intros Hkey Hrun Hs1 Hs2 Hdata Hi1 Hn1 Hi2 Hn2.
  destruct (data_sections_inv w _ _ _ _ Hdata)
    as (j1 & j2 & f1 & f2 & h1 & h2 & Hj1 & Hd1 & Hj2 & Hd2 & _).
  rewrite Hi1 in Hj1. injection Hj1 as <-.
  rewrite Hi2 in Hj2. injection Hj2 as <-.
  exists (query (stock1 w) (PyStr n1) (stock2 w) (PyStr n2)).
  split; [| split; [reflexivity | split]].
  - unfold run_script. rewrite (script_with_credential w Hkey), Hrun.
    rewrite main_content_split by (apply nonempty_truthy; assumption).
    rewrite Hdata.
    rewrite (ai_section_run w _ _ _ _ _ _ _ sd
               (company_info_of_company _ _ Hd1)
               (company_info_of_company _ _ Hd2)).
    rewrite (dict_get_present _ _ _ Hn1), (dict_get_present _ _ _ Hn2).
    cbn zeta. destruct (agent_run w _); reflexivity.
  - apply (query_names_first (stock1 w) (PyStr n1)).
  - apply (query_names_second _ _ (stock2 w) (PyStr n2)).
Qed.

End Script.

(** ** The statements on the sample worlds *)

Abbreviation sample_run := (run_script sample_float_str sample_float_str).

(** C1, on a symbol of which the provider knows nothing. *)
Lemma missing_fields_do_not_raise_sample :
  (exists d,
     snd (get_company_info sample_float_str sample_world "ZZZZ" initial) = Ok d
     /\ getitem d "Company" = Ok PyNone
     /\ getitem d "Market Cap" = Ok (PyStr "N/A"))
  /\ (exists f,
        snd (get_fundamentals sample_world "ZZZZ" initial) = Ok f
        /\ getitem f "Price/Book" = Ok PyNone).
Proof.
  destruct (missing_fields_do_not_raise sample_float_str sample_world "ZZZZ"
              initial ∅ eq_refl)
    as (_ & Hreturns & Hrecord & (f & Hf & _ & _ & _ & Hbook)).
  destruct (Hreturns eq_refl) as (d & Hd).
  destruct (Hrecord d Hd) as (Hname & _ & _ & Hcap).
  split.
  - exists d. split; [exact Hd |]. split; [apply Hname | apply Hcap]; reflexivity.
  - exists f. split; [exact Hf | apply Hbook; reflexivity].
Defined.

(** The claim C1 as stated fails there: the absent company name is [None] in
    the record returned, not the "N/A" marker. *)
Lemma absent_name_is_none_not_na :
  sample_info "ZZZZ" !! "longName" = None
  /\ exists d,
       snd (get_company_info sample_float_str sample_world "ZZZZ" initial) = Ok d
       /\ getitem d "Company" = Ok PyNone
       /\ getitem d "Company" <> Ok (PyStr "N/A").
Proof.
  split; [reflexivity |]. eexists. split; [vm_compute; reflexivity |].
  split; [reflexivity | discriminate].
Qed.

(** C2, on the symbol "ZZZZ". *)
Lemma absent_name_is_rendered_as_none_sample :
  exists prompt,
    In (AgentRun "llama-3.3-70b-versatile" (PyStr "gsk_sample") prompt)
       (calls (fst (sample_run (with_inputs sample_world "ZZZZ" "MSFT" true))))
    /\ Substring "ZZZZ (None)" prompt.
Proof.
  edestruct (absent_name_is_rendered_as_none sample_float_str sample_float_str
               (with_inputs sample_world "ZZZZ" "MSFT" true))
    as (prompt & Hcalls & Hfirst & _).
  - reflexivity.
  - reflexivity.
  - discriminate.
  - discriminate.
  - vm_compute. reflexivity.
  - exists prompt. split.
    + rewrite Hcalls. apply in_or_app. right. left. reflexivity.
    + apply (Hfirst ∅); reflexivity.
Defined.

(** The claim C2 as stated fails there: no name is resolved for "ZZZZ", and
    the prompt sent does not contain "ZZZZ (ZZZZ)". *)
Lemma zzzz_prompt_has_no_symbol_fallback :
  sample_info "ZZZZ" !! "longName" = None
  /\ exists prompt,
       calls (fst (sample_run (with_inputs sample_world "ZZZZ" "MSFT" true)))
       = (data_requests "ZZZZ" "MSFT"
          ++ [AgentRun "llama-3.3-70b-versatile" (PyStr "gsk_sample") prompt])%list
       /\ ~ Substring "ZZZZ (ZZZZ)" prompt.
Proof.
  split; [reflexivity |]. eexists. split; [vm_compute; reflexivity |].
  intros Hsub. apply contains_complete in Hsub. vm_compute in Hsub.
  discriminate Hsub.
Qed.

(** C3, with the fundamentals fetch of the second symbol failing. *)
Lemma failed_fetch_aborts_the_run_sample :
  snd (sample_run (with_failing_request sample_world 3))
  = Uncaught (External "yfinance")
  /\ (forall model key prompt,
        ~ In (AgentRun model key prompt)
             (calls (fst (sample_run (with_failing_request sample_world 3)))))
  /\ (forall label value,
        ~ In (FCol2, Metric label value)
             (screen (fst (sample_run (with_failing_request sample_world 3))))).
Proof.
  edestruct (failed_fetch_aborts_the_run sample_float_str sample_float_str
               (with_failing_request sample_world 3)
               apple_info microsoft_info
               [ ("Company", PyStr "Apple Inc."); ("Sector", PyStr "Technology");
                 ("Industry", PyStr "Consumer Electronics");
                 ("Market Cap", PyStr "$3,000,000,000") ]
               [ ("Company", PyStr "Microsoft Corporation");
                 ("Sector", PyStr "Technology"); ("Industry", PyNone);
                 ("Market Cap", PyStr "$2,800,000,000,000") ]
               (External "yfinance") (Fundamentals2Fails apple_info))
    as (Hrun & Hcalls & Hcolumn & _).
  - reflexivity.
  - reflexivity.
  - discriminate.
  - discriminate.
  - reflexivity.
  - vm_compute. reflexivity.
  - reflexivity.
  - vm_compute. reflexivity.
  - repeat split; reflexivity.
  - split; [rewrite Hrun; reflexivity |].
    split; [exact Hcalls |].
    intros label value. apply Hcolumn. reflexivity.
Defined.

(** The claim C3 as stated fails there: both company-info fetches succeed
    and the fundamentals fetch for "MSFT" fails, yet the run is aborted: no
    metric of the second column is drawn as "N/A", or at all, and no
    narrative is asked for. *)
Lemma fundamentals_failure_aborts_msft_run :
  let r := sample_run (with_failing_request sample_world 3) in
  In (InfoRequest "MSFT") (calls (fst r))
  /\ snd r = Uncaught (External "yfinance")
  /\ (forall label value, ~ In (FCol2, Metric label value) (screen (fst r)))
  /\ (forall model key prompt, ~ In (AgentRun model key prompt) (calls (fst r)))
  /\ ~ degrades_to_not_available r.
Proof.
  cbv zeta.
  assert (Hrun : sample_run (with_failing_request sample_world 3)
                 = (fst (sample_run (with_failing_request sample_world 3)),
                    Uncaught (External "yfinance")))
    by (vm_compute; reflexivity).
  split; [vm_compute; auto |]. split; [rewrite Hrun; reflexivity |].
  split; [| split].
  - intros label value Hin. vm_compute in Hin.
    repeat (destruct Hin as [Hin | Hin]; [discriminate Hin |]). exact Hin.
  - intros model key prompt Hin. vm_compute in Hin.
    repeat (destruct Hin as [Hin | Hin]; [discriminate Hin |]). exact Hin.
  - intros (Hdone & _). rewrite Hrun in Hdone. discriminate Hdone.
Qed.

(** C4, on the sample history of seven months. *)
Lemma recent_prices_are_six_dated_points_sample :
  exists prices,
    snd (get_recent_prices sample_world "AAPL" "6mo" "1mo" initial) = Ok prices
    /\ length prices = 6%nat
    /\ Sorted str_lt (map Date prices)
    /\ Forall (fun d => is_ymd d = true) (map Date prices).
Proof.
  destruct (recent_prices_are_six_dated_points sample_world "AAPL" initial
              (date_frame sample_history) eq_refl)
    as (Hdated & _ & _).
  destruct (Hdated eq_refl eq_refl)
    as (prices & older & recent & Hprices & Hsplit & Hlen & _ & Hdate & _ & _
        & Hdates).
  assert (Hrecent : recent = tail 6 sample_history).
  { pose proof (f_equal (@length HistRow) Hsplit) as Hlength.
    rewrite length_app, Hlen in Hlength.
    unfold date_frame, sample_history in Hsplit, Hlength.
    cbn in Hsplit, Hlength.
    destruct older as [| a [| b older]]; cbn in Hsplit, Hlength; try lia.
    injection Hsplit as _ <-. reflexivity. }
  subst recent.
  destruct Hdates as (Hformat & Hsorted);
    [repeat constructor; cbn; lia |].
  exists prices. split; [exact Hprices |]. split.
  - rewrite <- (length_map Date), Hdate, length_map. reflexivity.
  - split; [| exact Hformat].
    apply Hsorted. repeat constructor; unfold date_lt; cbn; lia.
Defined.

(** The claim C4 as stated fails: for a symbol without data the provider
    returns a frame whose index holds no datetimes, and no series is
    returned; and two rows of the same day, which the function keeps both,
    give the same date twice. *)
Lemma recent_prices_without_data_or_order :
  snd (get_recent_prices (with_history sample_world no_data_frame)
         "ZZZZ" "6mo" "1mo" initial)
  = Raise (AttributeError "Can only use .dt accessor with datetimelike values")
  /\ exists prices,
       snd (get_recent_prices
              (with_history sample_world (date_frame same_day_rows))
              "AAPL" "6mo" "1mo" initial) = Ok prices
       /\ map Date prices = ["2025-03-01"; "2025-03-01"]
       /\ ~ Sorted str_lt (map Date prices).
Proof.
  split; [reflexivity |]. eexists. split; [vm_compute; reflexivity |].
  split; [reflexivity |].
  intros Hsorted. apply Sorted_inv in Hsorted as (_ & Hhead).
  apply HdRel_inv in Hhead. vm_compute in Hhead. discriminate Hhead.
Qed.

(** C5, on the sample provider. *)
Lemma market_cap_formatting_sample :
  (exists d,
     snd (get_company_info sample_float_str sample_world "AAPL" initial) = Ok d
     /\ getitem d "Market Cap" = Ok (PyStr "$3,000,000,000"))
  /\ (exists d,
        snd (get_company_info sample_float_str sample_world "ZZZZ" initial) = Ok d
        /\ getitem d "Market Cap" = Ok (PyStr "N/A")).
Proof.
  split.
  - apply (proj1 (market_cap_formatting sample_float_str sample_world "AAPL"
                    initial apple_info eq_refl)).
    reflexivity.
  - apply (proj2 (market_cap_formatting sample_float_str sample_world "ZZZZ"
                    initial ∅ eq_refl)).
    reflexivity.
Defined.

(** C6, on the sample provider. *)
Lemma market_cap_is_surfaced_formatted_sample :
  exists d,
    snd (get_company_info sample_float_str sample_world "AAPL" initial) = Ok d
    /\ getitem d "Market Cap" = Ok (PyStr "$3,000,000,000").
Proof.
  destruct (market_cap_is_surfaced_formatted sample_float_str sample_world
              "AAPL" initial apple_info 3000000000 eq_refl)
    as (d & Hd & Hcap & _).
  - reflexivity.
  - lia.
  - exists d. split; [exact Hd | exact Hcap].
Defined.

(** The claim C6 as stated fails there: the market cap 3000000000 is present
    upstream, and what [get_company_info] returns for it is not that
    number. *)
Lemma market_cap_is_not_surfaced_raw :
  sample_info "AAPL" !! "marketCap" = Some (PyInt 3000000000)
  /\ exists d,
       snd (get_company_info sample_float_str sample_world "AAPL" initial) = Ok d
       /\ getitem d "Market Cap" = Ok (PyStr "$3,000,000,000")
       /\ getitem d "Market Cap" <> Ok (PyInt 3000000000).
Proof.
  split; [reflexivity |]. eexists. split; [vm_compute; reflexivity |].
  split; [reflexivity | discriminate].
Qed.


(** C8, with the text-generation client down. *)
Lemma narrative_failure_keeps_data_sections_sample :
  snd (sample_run (with_agent sample_world (Failed "groq")))
  = Uncaught (External "groq")
  /\ exists sd infos,
       data_sections sample_float_str sample_float_str
         (with_agent sample_world (Failed "groq"))
         "AAPL" "MSFT" (layout_state (with_agent sample_world (Failed "groq")))
       = (sd, Ok infos)
       /\ screen (fst (sample_run (with_agent sample_world (Failed "groq"))))
          = (screen sd ++ ai_heading)%list.
Proof.
  edestruct (narrative_failure_keeps_data_sections sample_float_str
               sample_float_str (with_agent sample_world (Failed "groq")))
    as (f1 & f2 & p1 & p2 & prompt & _ & _ & Hfail & _).
  - reflexivity.
  - reflexivity.
  - discriminate.
  - discriminate.
  - vm_compute. reflexivity.
  - destruct (Hfail "groq" eq_refl) as (Hout & Hscreen).
    split; [exact Hout |]. eexists. eexists.
    split; [vm_compute; reflexivity | exact Hscreen].
Defined.

(** The claim C8 as stated fails there: the failure of the text-generation
    call is not confined to the narrative section.  Nothing catches it: the
    run does not complete, it is left by the client's exception, and the
    script draws no message of its own for the section. *)
Lemma failed_narrative_is_not_caught :
  let r := sample_run (with_agent sample_world (Failed "groq")) in
  snd r = Uncaught (External "groq")
  /\ snd r <> Completed
  /\ (forall c body, ~ In (c, ErrorBox body) (screen (fst r)))
  /\ (forall c body, In (c, Markdown body) (screen (fst r)) ->
        body = "## 📌 Fundamentals" \/ body = "## 📈 Recent Price Trend"
        \/ body = "## 🤖 AI Investment Analysis").
Proof.
  cbv zeta.
  assert (Hrun : sample_run (with_agent sample_world (Failed "groq"))
                 = (fst (sample_run (with_agent sample_world (Failed "groq"))),
                    Uncaught (External "groq")))
    by (vm_compute; reflexivity).
  split; [rewrite Hrun; reflexivity |].
  split; [rewrite Hrun; discriminate |]. split.
  - intros c body Hin. vm_compute in Hin.
    repeat (destruct Hin as [Hin | Hin]; [discriminate Hin |]). exact Hin.
  - intros c body Hin. vm_compute in Hin.
    repeat (destruct Hin as [Hin | Hin];
            [first [discriminate Hin | injection Hin as _ <-; auto] |]).
    contradiction.
Qed.

(** C9, on a provider that reports a market cap of 0. *)
Lemma zero_market_cap_is_not_available_sample :
  exists d,
    snd (get_company_info sample_float_str
           (with_info sample_world (<["marketCap" := PyInt 0]> apple_info))
           "AAPL" initial) = Ok d
    /\ getitem d "Market Cap" = Ok (PyStr "N/A").
Proof.
  destruct (zero_market_cap_is_not_available sample_float_str
              (with_info sample_world (<["marketCap" := PyInt 0]> apple_info))
              "AAPL" initial (<["marketCap" := PyInt 0]> apple_info) eq_refl)
    as (_ & d & Hd & Hcap & _).
  - reflexivity.
  - exists d. split; [exact Hd | exact Hcap].
Defined.

(** C10, with the first symbol left empty and the button pressed. *)
Lemma empty_symbol_skips_the_run_sample :
  sample_run (with_inputs sample_world "" "MSFT" true) =
  ({| screen := layout_screen (with_inputs sample_world "" "MSFT" true);
      calls := [] |},
   Completed).
Proof.
  apply (empty_symbol_skips_the_run sample_float_str sample_float_str
           (with_inputs sample_world "" "MSFT" true)).
  - reflexivity.
  - left. reflexivity.
Defined.

(** ** The further properties on the sample worlds *)

(** X1, on a provider that reports the market cap as the string "3T". *)
Lemma string_market_cap_raises_sample :
  snd (get_company_info sample_float_str
         (with_info sample_world (<["marketCap" := PyStr "3T"]> apple_info))
         "AAPL" initial)
  = Raise (ValueError "Cannot specify ',' with 's'.").
Proof.
  apply (proj2 (string_market_cap_raises sample_float_str
                  (with_info sample_world (<["marketCap" := PyStr "3T"]> apple_info))
                  "AAPL" initial)
           (<["marketCap" := PyStr "3T"]> apple_info) eq_refl).
  left. exists "3T". split; [reflexivity |]. split; [discriminate | reflexivity].
Defined.

(** X2, on the sample provider. *)
Lemma company_record_shape_sample :
  exists cap,
    snd (get_company_info sample_float_str sample_world "MSFT" initial)
    = Ok [ ("Company", PyStr "Microsoft Corporation");
           ("Sector", PyStr "Technology");
           ("Industry", PyNone);
           ("Market Cap", PyStr cap) ]
    /\ exists digits, cap = String "$" digits.
Proof.
  destruct (company_record_shape sample_float_str sample_world "MSFT" initial
              microsoft_info
              [ ("Company", PyStr "Microsoft Corporation");
                ("Sector", PyStr "Technology"); ("Industry", PyNone);
                ("Market Cap", PyStr "$2,800,000,000,000") ]
              eq_refl)
    as (cap & Hd & _ & Hcap).
  - vm_compute. reflexivity.
  - exists "$2,800,000,000,000". split; [vm_compute; reflexivity |].
    eexists. reflexivity.
Defined.

(** X3, on the sample provider. *)
Lemma fundamentals_are_passed_through_sample :
  exists f,
    snd (get_fundamentals sample_world "AAPL" initial) = Ok f
    /\ getitem f "Trailing P/E" = Ok (PyFloat (S754_finite false 59 (-1)))
    /\ getitem f "Price/Book" = Ok PyNone.
Proof.
  destruct (fundamentals_are_passed_through sample_world "AAPL" initial)
    as (_ & _ & Hok & _).
  destruct (Hok apple_info eq_refl) as (f & Hf & _ & Hvalues).
  exists f. split; [exact Hf |]. split.
  - apply (Hvalues "trailingPE"). cbn. auto.
  - apply (Hvalues "priceToBook"). cbn. auto 6.
Defined.

(** X4, on the sample world. *)
Lemma answered_run_is_complete_sample :
  snd (sample_run sample_world) = Completed
  /\ length (calls (fst (sample_run sample_world))) = 7%nat.
Proof.
  rewrite (answered_run_is_complete sample_float_str sample_float_str
             sample_world apple_info microsoft_info apple_info microsoft_info
             [ ("Company", PyStr "Apple Inc."); ("Sector", PyStr "Technology");
               ("Industry", PyStr "Consumer Electronics");
               ("Market Cap", PyStr "$3,000,000,000") ]
             [ ("Company", PyStr "Microsoft Corporation");
               ("Sector", PyStr "Technology"); ("Industry", PyNone);
               ("Market Cap", PyStr "$2,800,000,000,000") ]
             (formatted_rows (tail 6 sample_history))
             (formatted_rows (tail 6 sample_history))
             (PyStr "- AAPL vs MSFT: hold both.")).
  - split; reflexivity.
  - reflexivity.
  - reflexivity.
  - discriminate.
  - discriminate.
  - reflexivity.
  - vm_compute. reflexivity.
  - reflexivity.
  - vm_compute. reflexivity.
  - reflexivity.
  - reflexivity.
  - reflexivity.
  - reflexivity.
  - reflexivity.
  - reflexivity.
  - reflexivity.
Defined.

(** X5, with the provider failing on the second symbol. *)
Lemma company_info_failure_aborts_the_run_sample :
  snd (sample_run (with_failing_request sample_world 1))
  = Uncaught (External "yfinance")
  /\ calls (fst (sample_run (with_failing_request sample_world 1)))
     = [InfoRequest "AAPL"; InfoRequest "MSFT"].
Proof.
  destruct (company_info_failure_aborts_the_run sample_float_str
              sample_float_str (with_failing_request sample_world 1) "yfinance")
    as (_ & Hsecond).
  - reflexivity.
  - reflexivity.
  - discriminate.
  - discriminate.
  - rewrite (Hsecond apple_info
               [ ("Company", PyStr "Apple Inc."); ("Sector", PyStr "Technology");
                 ("Industry", PyStr "Consumer Electronics");
                 ("Market Cap", PyStr "$3,000,000,000") ]).
    + split; reflexivity.
    + reflexivity.
    + vm_compute. reflexivity.
    + reflexivity.
Defined.

(** X9, with the button not pressed. *)
Lemma provider_is_asked_exactly_under_the_guard_sample :
  sample_run (with_inputs sample_world "AAPL" "MSFT" false)
  = (layout_state (with_inputs sample_world "AAPL" "MSFT" false), Completed).
Proof.
  apply (proj2 (provider_is_asked_exactly_under_the_guard sample_float_str
                  sample_float_str
                  (with_inputs sample_world "AAPL" "MSFT" false) eq_refl)).
  intros (Hclicked & _). discriminate Hclicked.
Defined.

(** X10, with an empty credential. *)
Lemma credential_is_tested_by_truth_value_sample :
  sample_run (with_credential sample_world "") =
  ({| screen := [ (MainArea, page_config); (MainArea, ErrorBox key_not_found) ];
      calls := [] |},
   Stopped).
Proof.
  apply (proj1 (credential_is_tested_by_truth_value sample_float_str
                  sample_float_str (with_credential sample_world ""))).
  reflexivity.
Defined.

(** X11, on the sample history of seven months. *)
Lemma recent_prices_are_the_last_rows_sample :
  exists prices older recent,
    snd (get_recent_prices sample_world "AAPL" "6mo" "1mo" initial) = Ok prices
    /\ sample_history = (older ++ recent)%list
    /\ length prices = 6%nat
    /\ map Volume prices = map h_volume recent.
Proof.
  destruct (recent_prices_are_the_last_rows sample_world "AAPL" "6mo" "1mo"
              initial (date_frame sample_history) eq_refl)
    as (_ & _ & Hdated).
  destruct (Hdated eq_refl eq_refl)
    as (prices & older & recent & Hp & Hsplit & Hlen & _ & Hvol & _).
  exists prices, older, recent. auto.
Defined.

(** X12, on two days of the same month. *)
Lemma formatted_dates_order_as_dates_sample :
  str_lt (strftime_ymd {| year := 2025; month := 3; day := 9; nanos := 0 |})
         (strftime_ymd {| year := 2025; month := 3; day := 10; nanos := 0 |}).
Proof.
  apply (proj1 (formatted_dates_order_as_dates
                  {| year := 2025; month := 3; day := 9; nanos := 0 |}
                  {| year := 2025; month := 3; day := 10; nanos := 0 |}
                  ltac:(unfold calendar_date; cbn; lia)
                  ltac:(unfold calendar_date; cbn; lia))).
  unfold date_lt. cbn. lia.
Defined.

(** X14, on the sample world. *)
Lemma prompt_names_both_companies_sample :
  exists prompt,
    In (AgentRun "llama-3.3-70b-versatile" (PyStr "gsk_sample") prompt)
       (calls (fst (sample_run sample_world)))
    /\ Substring "AAPL (Apple Inc.)" prompt
    /\ Substring "MSFT (Microsoft Corporation)" prompt.
Proof.
  edestruct (prompt_names_both_companies sample_float_str sample_float_str
               sample_world)
    with (i1 := apple_info) (i2 := microsoft_info)
         (n1 := "Apple Inc.") (n2 := "Microsoft Corporation")
    as (prompt & Hcalls & _ & Hfirst & Hsecond).
  - reflexivity.
  - reflexivity.
  - discriminate.
  - discriminate.
  - vm_compute. reflexivity.
  - reflexivity.
  - reflexivity.
  - reflexivity.
  - reflexivity.
  - exists prompt. split; [| split; assumption].
    rewrite Hcalls. apply in_or_app. right. left. reflexivity.
Defined.
